(** * http_test_server: the ingestion stub server of [server.go]

    A shallow embedding of [server.go] (package [main]): the [Server]
    struct, the handlers [Index] and [Health], [WriteSummary], [NewServer]
    and the two straight-line parts of [Listen] (the start-up path and the
    signal goroutine), followed by the properties of the specification
    stated over these definitions.

    Conventions.
    - [int64] and [int32] values are integers of [Z]; Go's wrapping
      addition is written out ([Int64.add]).
    - A Go [string] is a sequence of bytes: Rocq's [string] (a list of
      8-bit [ascii]).
    - [http.Header] is a [gmap] from (canonical) header names to the list
      of their values.
    - Functions of Go's standard library ([strings.Split],
      [json.Marshal], [utf8.ValidString], the [http.ResponseWriter]) are
      written out after their documentation, as far as [server.go] uses
      them.
    - Handlers run one at a time: a request is one step of the process.
      The source updates the counters without synchronisation; what
      interleaved handlers do to them is not part of this development.
    - What the handlers print through [log.Logger] goes to standard output
      and is left out of the handlers; the lifecycle code keeps its log
      lines as [ELog] effects, because their position is part of the
      start-up and shutdown order. The handlers as [http.Handler] values
      ([Index_handler], under [tracing] and [logging]) keep theirs too. *)

From Stdlib Require Import ZArith String Ascii List Bool Lia.
From Stdlib Require Import Decimal DecimalString DecimalZ DecimalPos.
From stdpp Require Import base gmap strings list.
Import ListNotations.

Local Open Scope string_scope.
Local Open Scope list_scope.
Local Open Scope Z_scope.

(** ** Machine integers *)

Module Int64.

Definition min_int : Z := - 2 ^ 63.
Definition max_int : Z := 2 ^ 63 - 1.

Definition in_range (z : Z) : Prop := min_int <= z <= max_int.

(** Two's complement reduction of an integer to 64 bits. *)
Definition wrap (z : Z) : Z := (z + 2 ^ 63) mod 2 ^ 64 - 2 ^ 63.

(** Go's [+] on [int64]: overflow wraps around, it does not panic. *)
Definition add (a b : Z) : Z := wrap (a + b).

(** [int64(n)] for [n] the [int] that [len] returns. *)
Definition of_len (n : nat) : Z := wrap (Z.of_nat n).

End Int64.

(** ** [strings.Split(s, "\n")] *)

Module Strings.

(** The line feed byte, ["\n"] in Go. *)
Definition LF : ascii := ascii_of_nat 10.

(** [strings.Split(s, sep)] for a separator of one byte [sep]: the
    substrings between the occurrences of [sep], in order; one more
    than there are occurrences, so never an empty slice. *)
Fixpoint Split (s : string) (sep : ascii) : list string :=
  match s with
  | EmptyString => [EmptyString]
  | String c rest =>
      if Ascii.eqb c sep then EmptyString :: Split rest sep
      else match Split rest sep with
           | seg :: segs => String c seg :: segs
           | [] => [String c EmptyString]
           end
  end.

(** [strings.Count(s, sep)] for a separator of one byte. *)
Fixpoint Count (s : string) (sep : ascii) : nat :=
  match s with
  | EmptyString => O
  | String c rest =>
      if Ascii.eqb c sep then S (Count rest sep) else Count rest sep
  end.

(** [strings.Join(segs, sep)] for a separator of one byte. *)
Fixpoint Join (segs : list string) (sep : ascii) : string :=
  match segs with
  | [] => EmptyString
  | [seg] => seg
  | seg :: rest => String.append seg (String sep (Join rest sep))
  end.

(** [strings.IndexByte(s, c) >= 0]. *)
Fixpoint Contains (s : string) (c : ascii) : bool :=
  match s with
  | EmptyString => false
  | String c' rest => Ascii.eqb c' c || Contains rest c
  end.

End Strings.

(** ** The server state *)

(** [type Server struct]. The fields [file], [logger] and [server] are
    handles (an unused file, the logger, the [*http.Server]); what the
    code does through them is in [World] below. *)
Record Server := mkServer {
  address : string;
  ByteTotal : Z;
  FirstMessage : string;
  LastMessage : string;
  MessageCount : Z;
  RequestCount : Z
}.

(** ** Requests and responses *)

(** What [ioutil.ReadAll(r.Body)] returns: the bytes, or an error. *)
Inductive ReadResult :=
| ReadOk (bodyBytes : string)
| ReadErr (err : string).

Record Request := mkRequest {
  Method : string;
  URLPath : string;
  Header : gmap string (list string);
  Body : ReadResult
}.

(** [r.Header.Get(key)]: the first value of the header, [""] when there
    is none. (The keys used here are in canonical form already.) *)
Definition Header_Get (h : gmap string (list string)) (key : string) : string :=
  match h !! key with
  | Some (v :: _) => v
  | _ => ""
  end.

Definition StatusNoContent : Z := 204.
Definition StatusBadRequest : Z := 400.
Definition StatusServiceUnavailable : Z := 503.
Definition StatusOK : Z := 200.
Definition StatusNotModified : Z := 304.

(** The [http.ResponseWriter] of one request: the status line once it is
    written, and the body bytes sent so far. *)
Record ResponseWriter := mkResponseWriter {
  StatusCode : option Z;
  Sent : string
}.

Definition newResponseWriter : ResponseWriter :=
  {| StatusCode := None; Sent := "" |}.

(** [w.WriteHeader(code)]: the first call fixes the status. *)
Definition WriteHeader (code : Z) (w : ResponseWriter) : ResponseWriter :=
  match StatusCode w with
  | Some _ => w
  | None => {| StatusCode := Some code; Sent := Sent w |}
  end.

(** net/http's [bodyAllowedForStatus]. *)
Definition bodyAllowedForStatus (status : Z) : bool :=
  if (100 <=? status) && (status <=? 199) then false
  else if status =? StatusNoContent then false
  else if status =? StatusNotModified then false
  else true.

(** [w.Write(data)]: writes the header with 200 when none was written;
    a status without a body drops the data. *)
Definition Write (data : string) (w : ResponseWriter) : ResponseWriter :=
  let w := WriteHeader StatusOK w in
  match StatusCode w with
  | Some code =>
      if bodyAllowedForStatus code
      then {| StatusCode := StatusCode w; Sent := String.append (Sent w) data |}
      else w
  | None => w
  end.

(** [fmt.Fprintln(w, a)]. *)
Definition Fprintln (a : string) (w : ResponseWriter) : ResponseWriter :=
  Write (String.append a (String Strings.LF EmptyString)) w.

(** [http.Error(w, error, code)]. *)
Definition http_Error (error : string) (code : Z) (w : ResponseWriter) : ResponseWriter :=
  Fprintln error (WriteHeader code w).

(** ** The ingestion handler, [Index] *)

(** The [switch contentType] of [Index]: the four cases that split. *)
Definition allow_listed (contentType : string) : bool :=
  String.eqb contentType "application/json"
  || String.eqb contentType "application/ndjson"
  || String.eqb contentType "application/x-ndjson"
  || String.eqb contentType "text/plain".

(** [messages] after the [switch]: [[]string{}] unless a case matched. *)
Definition messages_of (contentType body : string) : list string :=
  if String.eqb contentType "application/json" then Strings.Split body Strings.LF
  else if String.eqb contentType "application/ndjson" then Strings.Split body Strings.LF
  else if String.eqb contentType "application/x-ndjson" then Strings.Split body Strings.LF
  else if String.eqb contentType "text/plain" then Strings.Split body Strings.LF
  else [].

(** [s.RequestCount++], the first statement of the handler. *)
Definition Index_count (s : Server) : Server :=
  {| address := address s;
     ByteTotal := ByteTotal s;
     FirstMessage := FirstMessage s;
     LastMessage := LastMessage s;
     MessageCount := MessageCount s;
     RequestCount := Int64.add (RequestCount s) 1 |}.

(** The [if messageCount > 0] block. [messages[0]] and
    [messages[messageCount-1]] are in range there. *)
Definition Index_tally (s : Server) (byteLen : nat) (messages : list string) : Server :=
  match messages with
  | [] => s
  | firstMessage :: _ =>
      let lastMessage := List.last messages "" in
      {| address := address s;
         ByteTotal := Int64.add (ByteTotal s) (Int64.of_len byteLen);
         FirstMessage :=
           if String.eqb (FirstMessage s) "" && negb (String.eqb firstMessage "")
           then firstMessage else FirstMessage s;
         LastMessage :=
           if negb (String.eqb lastMessage "") then lastMessage else LastMessage s;
         MessageCount := Int64.add (MessageCount s) (Int64.of_len (List.length messages));
         RequestCount := RequestCount s |}
  end.

(** The handler from the body read on: [s] is the state the read finds. *)
Definition Index_serve (s : Server) (contentType : string) (read : ReadResult)
    (w : ResponseWriter) : Server * ResponseWriter :=
  match read with
  | ReadErr _ => (s, http_Error "can't read body" StatusBadRequest w)
  | ReadOk body =>
      let byteLen := String.length body in
      let messages := messages_of contentType body in
      (Index_tally s byteLen messages,
       Fprintln "" (WriteHeader StatusNoContent w))
  end.

(** [Index]: count the request, then read the body and tally it. *)
Definition Index (s : Server) (r : Request) (w : ResponseWriter) : Server * ResponseWriter :=
  let s := Index_count s in
  let contentType := Header_Get (Header r) "Content-Type" in
  Index_serve s contentType (Body r) w.

(** ** The health handler and the constructor *)

(** [Health]: [atomic.LoadInt32(&healthy) == 1] decides the status. The
    handler reads the package variable [healthy] and nothing else. *)
Definition Health (healthy : Z) (w : ResponseWriter) : ResponseWriter :=
  if healthy =? 1 then WriteHeader StatusNoContent w
  else WriteHeader StatusServiceUnavailable w.

(** The [&Server{...}] literal of [NewServer]: the string fields are not
    listed there and take Go's zero value [""]. *)
Definition NewServer (address : string) : Server :=
  {| address := address;
     ByteTotal := 0;
     FirstMessage := "";
     LastMessage := "";
     MessageCount := 0;
     RequestCount := 0 |}.

(** ** [encoding/json] on the [Server] struct *)

Module UTF8.

Definition byte (c : ascii) : Z := Z.of_N (N_of_ascii c).

(** [unicode/utf8]'s table [first] with its [acceptRanges]: for a lead
    byte of a multi-byte sequence, the length of the sequence and the
    range the second byte must lie in; [None] for the bytes that start
    no sequence (0x80-0xC1 and 0xF5-0xFF). *)
Definition first (b : Z) : option (nat * Z * Z) :=
  if b <? 0xC2 then None
  else if b <=? 0xDF then Some (2%nat, 0x80, 0xBF)
  else if b =? 0xE0 then Some (3%nat, 0xA0, 0xBF)
  else if b <=? 0xEC then Some (3%nat, 0x80, 0xBF)
  else if b =? 0xED then Some (3%nat, 0x80, 0x9F)
  else if b <=? 0xEF then Some (3%nat, 0x80, 0xBF)
  else if b =? 0xF0 then Some (4%nat, 0x90, 0xBF)
  else if b <=? 0xF3 then Some (4%nat, 0x80, 0xBF)
  else if b =? 0xF4 then Some (4%nat, 0x80, 0x8F)
  else None.

Definition between (lo hi : Z) (c : ascii) : bool :=
  (lo <=? byte c) && (byte c <=? hi).

(** A continuation byte, [locb <= c <= hicb]. *)
Definition cont (c : ascii) : bool := between 0x80 0xBF c.

Definition RuneSelf : Z := 0x80.

(** U+FFFD, the replacement character, in UTF-8: EF BF BD. *)
Definition replacement : string :=
  String (ascii_of_nat 239) (String (ascii_of_nat 191)
    (String (ascii_of_nat 189) EmptyString)).

(** [utf8.ValidString]. *)
Fixpoint Valid (s : string) : bool :=
  match s with
  | EmptyString => true
  | String c0 t0 =>
      if byte c0 <? RuneSelf then Valid t0
      else match first (byte c0), t0 with
           | Some (sz, lo, hi), String c1 t1 =>
               if negb (between lo hi c1) then false
               else if (sz =? 2)%nat then Valid t1
               else match t1 with
                    | String c2 t2 =>
                        if negb (cont c2) then false
                        else if (sz =? 3)%nat then Valid t2
                        else match t2 with
                             | String c3 t3 =>
                                 if negb (cont c3) then false else Valid t3
                             | EmptyString => false
                             end
                    | EmptyString => false
                    end
           | _, _ => false
           end
  end.

(** The string a JSON reader gets back from what [encoding/json] writes
    for [s]. The encoder walks [s] with [utf8.DecodeRuneInString]; where
    that reports [RuneError] with size 1 it writes the escape of U+FFFD
    and moves on by one byte, and every other rune it writes so that it
    reads back as the same bytes. ("String values encode as JSON strings
    coerced to valid UTF-8, replacing invalid bytes with the Unicode
    replacement rune.") *)
Fixpoint Coerce (s : string) : string :=
  match s with
  | EmptyString => EmptyString
  | String c0 t0 =>
      let bad := String.append replacement (Coerce t0) in
      if byte c0 <? RuneSelf then String c0 (Coerce t0)
      else match first (byte c0), t0 with
           | Some (sz, lo, hi), String c1 t1 =>
               if negb (between lo hi c1) then bad
               else if (sz =? 2)%nat then String c0 (String c1 (Coerce t1))
               else match t1 with
                    | String c2 t2 =>
                        if negb (cont c2) then bad
                        else if (sz =? 3)%nat
                        then String c0 (String c1 (String c2 (Coerce t2)))
                        else match t2 with
                             | String c3 t3 =>
                                 if negb (cont c3) then bad
                                 else String c0 (String c1 (String c2
                                        (String c3 (Coerce t3))))
                             | EmptyString => bad
                             end
                    | EmptyString => bad
                    end
           | _, _ => bad
           end
  end.

End UTF8.

(** A JSON value of the kinds the summary holds. *)
Inductive JsonValue :=
| JNumber (n : Z)
| JString (s : string).

(** A JSON document whose top level is an object, as the members it
    denotes, in the order they are written. *)
Definition Json : Type := list (string * JsonValue).

(** [json.Marshal(s)] for [s *Server]: the exported fields under the
    names of their [json] tags, in the order of the struct; the
    unexported fields ([address], [file], [logger], [server]) are left
    out. An [int64] is written in full, a string as [UTF8.Coerce] says.
    No field of [Server] can make [json.Marshal] fail. *)
Definition Marshal (s : Server) : Json :=
  [ ("byte_total", JNumber (ByteTotal s));
    ("first_message", JString (UTF8.Coerce (FirstMessage s)));
    ("last_message", JString (UTF8.Coerce (LastMessage s)));
    ("message_count", JNumber (MessageCount s));
    ("request_count", JNumber (RequestCount s)) ].

(** The member [key] of a JSON object (the first one of that name). *)
Fixpoint field (key : string) (doc : Json) : option JsonValue :=
  match doc with
  | [] => None
  | (k, v) :: rest => if String.eqb k key then Some v else field key rest
  end.

(** ** The process: start-up, signal, shutdown *)

Inductive Signal := SIGTERM | SIGINT.

(** What the process does to the outside, and the one store to the
    package variable [healthy]. *)
Inductive Effect :=
| ELog (line : string)
| ERemove (path : string)
| ENotify (sig : Signal)
| EStoreHealthy (v : Z)
| EListenAndServe (addr : string)
| EWriteFile (path : string) (data : Json)
| ESetKeepAlivesEnabled (v : bool)
| EShutdown
| EExit (code : Z).

(** The state of the [*http.Server]: before [ListenAndServe], bound and
    accepting connections, after [Shutdown]. *)
Inductive Listener := NotListening | Serving | ShutDown.

(** How the process ended: [os.Exit(code)] (also through [log.Fatal]),
    or the default action of a signal nobody was notified of. *)
Inductive Exit := ExitCode (code : Z) | KilledBy (sig : Signal).

Record World := mkWorld {
  srv : Server;                 (* the one [*Server] *)
  healthy : Z;                  (* [var healthy int32] *)
  files : gmap string Json;     (* the files written as JSON, by path *)
  listener : Listener;
  notified : bool;              (* the signal goroutine of [Listen] waits *)
  exited : option Exit;
  effects : list Effect         (* oldest first *)
}.

Definition summaryPath : string := "/tmp/http_test_server_summary.json".

Definition emit (es : list Effect) (W : World) : World :=
  {| srv := srv W; healthy := healthy W; files := files W;
     listener := listener W; notified := notified W; exited := exited W;
     effects := effects W ++ es |}.

Definition set_srv (s : Server) (W : World) : World :=
  {| srv := s; healthy := healthy W; files := files W;
     listener := listener W; notified := notified W; exited := exited W;
     effects := effects W |}.

Definition set_listener (l : Listener) (W : World) : World :=
  {| srv := srv W; healthy := healthy W; files := files W;
     listener := l; notified := notified W; exited := exited W;
     effects := effects W |}.

(** [os.Exit(code)]. *)
Definition os_Exit (code : Z) (W : World) : World :=
  let W := emit [EExit code] W in
  {| srv := srv W; healthy := healthy W; files := files W;
     listener := listener W; notified := notified W;
     exited := Some (ExitCode code);
     effects := effects W |}.

(** [log.Fatal] and [logger.Fatalf]: print, then [os.Exit(1)]. *)
Definition Fatal (line : string) (W : World) : World :=
  os_Exit 1 (emit [ELog line] W).

(** [atomic.StoreInt32(&healthy, v)]. *)
Definition StoreHealthy (v : Z) (W : World) : World :=
  let W := emit [EStoreHealthy v] W in
  {| srv := srv W; healthy := v; files := files W;
     listener := listener W; notified := notified W; exited := exited W;
     effects := effects W |}.

(** The process once [NewServer(address)] has returned: the stale summary
    is removed, the counters are zero, [healthy] has its zero value. *)
Definition boot (address : string) (disk : gmap string Json) : World :=
  {| srv := NewServer address;
     healthy := 0;
     files := delete summaryPath disk;
     listener := NotListening;
     notified := false;
     exited := None;
     effects := [ERemove summaryPath; ELog "Server is starting..."] |}.

(** [WriteSummary]. [write_ok] is whether [ioutil.WriteFile] succeeds; a
    failed write is taken to leave the file as it was. *)
Definition WriteSummary (write_ok : bool) (W : World) : World :=
  let sBytes := Marshal (srv W) in
  if write_ok then
    let W := emit [EWriteFile summaryPath sBytes] W in
    let W := {| srv := srv W; healthy := healthy W;
                files := <[summaryPath := sBytes]> (files W);
                listener := listener W; notified := notified W;
                exited := exited W; effects := effects W |} in
    emit [ELog "Wrote activity summary to %s"] W
  else Fatal "WriteFile error" W.

(** The goroutine of [Listen] that waits on [gracefulStop], from the
    moment it has received [sig]. [shutdown_ok] is whether
    [s.server.Shutdown(ctx)] returns [nil]. *)
Definition gracefulStop (sig : Signal) (write_ok shutdown_ok : bool) (W : World) : World :=
  let W := emit [ELog "Caught sig: %+v"] W in
  let W := WriteSummary write_ok W in
  match exited W with
  | Some _ => W
  | None =>
      let W := emit [ESetKeepAlivesEnabled false] W in
      let W := set_listener ShutDown (emit [EShutdown] W) in
      if shutdown_ok
      then os_Exit 0 (emit [ELog "Server stopped"] W)
      else Fatal "Could not gracefully shutdown the server: %v\n" W
  end.

(** [Listen], the calling goroutine: register for the two signals, start
    the goroutines, announce, store [healthy], then [ListenAndServe].
    [bind_ok] is whether the listener can be bound. *)
Definition Listen_ready (W : World) : World :=
  let W := emit [ENotify SIGTERM; ENotify SIGINT] W in
  let W := {| srv := srv W; healthy := healthy W; files := files W;
              listener := listener W; notified := true; exited := exited W;
              effects := effects W |} in
  let W := emit [ELog "Server is ready to handle requests at"] W in
  StoreHealthy 1 W.

Definition ListenAndServe (bind_ok : bool) (W : World) : World :=
  let W := emit [EListenAndServe (address (srv W))] W in
  if bind_ok then set_listener Serving W
  else Fatal "Could not listen on %s: %v\n" W.

Definition Listen (bind_ok : bool) (W : World) : World :=
  ListenAndServe bind_ok (Listen_ready W).

(** ** Runs of the process *)

(** What can happen to a running process: a request reaches one of the
    two handlers, the ticker fires, a signal arrives. *)
Inductive Op :=
| OpIndex (r : Request)
| OpHealth (r : Request)
| OpTick
| OpSignal (sig : Signal) (write_ok shutdown_ok : bool).

Definition step (W : World) (op : Op) : World :=
  match exited W with
  | Some _ => W
  | None =>
      match op with
      | OpIndex r => set_srv (fst (Index (srv W) r newResponseWriter)) W
      | OpHealth _ => W
      | OpTick =>
          if notified W
          then emit [ELog "Received %v messages across %v requests"] W
          else W
      | OpSignal sig write_ok shutdown_ok =>
          if notified W then gracefulStop sig write_ok shutdown_ok W
          else {| srv := srv W; healthy := healthy W; files := files W;
                  listener := listener W; notified := notified W;
                  exited := Some (KilledBy sig); effects := effects W |}
      end
  end.

Definition run (ops : list Op) (W : World) : World := fold_left step ops W.

(** The response a request to the health route gets in [W]. *)
Definition health_response (W : World) : ResponseWriter :=
  Health (healthy W) newResponseWriter.


(** [Index] over a sequence of requests, one after the other. *)
Definition Index_all (rs : list Request) (s : Server) : Server :=
  fold_left (fun s r => fst (Index s r newResponseWriter)) rs s.

(** A request with the given content type and body outcome. *)
Definition request (contentType : string) (body : ReadResult) : Request :=
  {| Method := "POST"; URLPath := "/";
     Header := {[ "Content-Type" := [contentType] ]};
     Body := body |}.

(** ** Bodies of the scenarios *)

(** The body ["a\nb\nc"]: five bytes, three lines. *)
Definition body_a_b_c : string :=
  String "a" (String Strings.LF (String "b" (String Strings.LF (String "c" "")))).

(** The body ["\nfirst"]: an empty first line, then [first]. *)
Definition body_nl_first : string := String Strings.LF "first".

(** ** What a request carries, as [Index] sees it *)

(** The slice [messages] that [Index] computes for [r]; a request whose
    body cannot be read never gets that far. *)
Definition request_messages (r : Request) : list string :=
  match Body r with
  | ReadOk body => messages_of (Header_Get (Header r) "Content-Type") body
  | ReadErr _ => []
  end.

(** [messages[0]] of a request, [""] when it has no messages. *)
Definition request_firstMessage (r : Request) : string :=
  List.hd "" (request_messages r).

(** [len(bodyBytes)] of a request, 0 when the body cannot be read. *)
Definition request_byteLen (r : Request) : nat :=
  match Body r with
  | ReadOk body => String.length body
  | ReadErr _ => O
  end.

(** The first string of a list that is not empty, [""] when all are. *)
Fixpoint first_nonempty (l : list string) : string :=
  match l with
  | [] => ""
  | x :: rest => if String.eqb x "" then first_nonempty rest else x
  end.

(** The specification's reading of [firstMessage]: "the first non-empty
    segment ever sent", over all segments of all requests in order. *)
Definition claimed_FirstMessage (rs : list Request) : string :=
  first_nonempty (List.concat (List.map request_messages rs)).

(** What the code keeps: of the requests in order, the first
    [messages[0]] that is not empty. *)
Definition leading_FirstMessage (rs : list Request) : string :=
  first_nonempty (List.map request_firstMessage rs).

(** ** Order of effects *)

(** The effects [W'] has added to those of [W]. *)
Definition since (W W' : World) : list Effect :=
  drop (List.length (effects W)) (effects W').

(** In [es], every [b] comes after an [a]. *)
Definition preceded_by (a b : Effect) (es : list Effect) : Prop :=
  forall i : nat, es !! i = Some b ->
    exists j : nat, (j < i)%nat /\ es !! j = Some a.

Definition is_store (e : Effect) : bool :=
  match e with
  | EStoreHealthy _ => true
  | _ => false
  end.

Definition is_bind (e : Effect) : bool :=
  match e with
  | EListenAndServe _ => true
  | _ => false
  end.

(** A body of the single byte 0xFF, which is not UTF-8. *)
Definition body_ff : string := String (ascii_of_nat 255) "".

(** ** Counters along a run *)

(** No counter of [s'] is below the one of [s]. *)
Definition counters_le (s s' : Server) : Prop :=
  RequestCount s <= RequestCount s' /\
  MessageCount s <= MessageCount s' /\
  ByteTotal s <= ByteTotal s'.

(** The bytes [Index] adds to [ByteTotal] for [r]: the length of the body
    when the request has messages. *)
Definition request_bytes (r : Request) : nat :=
  match request_messages r with
  | [] => O
  | _ :: _ => request_byteLen r
  end.

(** None of the three additions [Index] makes for [r] in state [s]
    leaves the range of [int64]. *)
Definition fits (s : Server) (r : Request) : Prop :=
  Int64.in_range (RequestCount s + 1) /\
  Int64.in_range (MessageCount s + Z.of_nat (List.length (request_messages r))) /\
  Int64.in_range (ByteTotal s + Z.of_nat (request_bytes r)).

#[global] Instance in_range_dec (z : Z) : Decision (Int64.in_range z) :=
  ltac:(unfold Int64.in_range; apply _).

#[global] Instance counters_le_dec (s s' : Server) : Decision (counters_le s s') :=
  ltac:(unfold counters_le; apply _).

#[global] Instance fits_dec (s : Server) (r : Request) : Decision (fits s r) :=
  ltac:(unfold fits; apply _).

(** The same along a run. *)
Fixpoint no_overflow (W : World) (ops : list Op) : Prop :=
  match ops with
  | [] => True
  | op :: rest =>
      match op with
      | OpIndex r => exited W = None -> fits (srv W) r
      | _ => True
      end /\ no_overflow (step W op) rest
  end.

(** The requests a run passes to [Index]: those that arrive while the
    process has not exited. *)
Fixpoint served (W : World) (ops : list Op) : list Request :=
  match ops with
  | [] => []
  | op :: rest =>
      match exited W, op with
      | None, OpIndex r => [r]
      | _, _ => []
      end ++ served (step W op) rest
  end.

(** ** More of what a request carries *)

(** [messages[messageCount-1]] of a request, [""] when it has no
    messages. *)
Definition request_lastMessage (r : Request) : string :=
  List.last (request_messages r) "".

(** Over a sequence of requests: the messages and the bytes [Index]
    tallies. *)
Definition messages_total (rs : list Request) : nat :=
  list_sum (List.map (fun r => List.length (request_messages r)) rs).

Definition bytes_total (rs : list Request) : nat :=
  list_sum (List.map request_bytes rs).

(** [s] ends with the byte [c]. *)
Fixpoint ends_with (s : string) (c : ascii) : bool :=
  match s with
  | EmptyString => false
  | String c' EmptyString => Ascii.eqb c' c
  | String _ rest => ends_with rest c
  end.

(** The three counters are [int64] values. *)
Definition counters_in_range (s : Server) : Prop :=
  Int64.in_range (RequestCount s) /\
  Int64.in_range (MessageCount s) /\
  Int64.in_range (ByteTotal s).

(** ** Signals in a run *)



(** ** The middleware: [tracing] and [logging] *)

(** [fmt.Sprintf("%d", z)]: the decimal digits, with a minus sign for a
    negative number. *)
Definition Sprintf_d (z : Z) : string := NilZero.string_of_int (Z.to_int z).

(** Reading a decimal integer back ([strconv.ParseInt(s, 10, 64)] on what
    [Sprintf_d] prints). *)
Definition ParseInt (s : string) : option Z :=
  option_map Z.of_int (NilZero.int_of_string s).

(** [fmt.Sprintln] of strings, without the final line feed the logger
    takes care of: the operands with a space between them. *)
Definition Sprintln (operands : list string) : string :=
  Strings.Join operands " ".

(** [const requestIDKey key = 0]. *)
Definition requestIDKey : Z := 0.

(** A request as a handler gets it: the [*http.Request] with the address
    of its peer, the strings its context holds under keys of type [key],
    and what [time.Now().UnixNano()] reads while it is served. *)
Record Inbound := mkInbound {
  Req : Request;
  RemoteAddr : string;
  Ctx : gmap Z string;
  UnixNano : Z
}.

(** The response side of a handler: the writer, and the header map
    [w.Header()]. *)
Record Outbound := mkOutbound {
  Writer : ResponseWriter;
  RespHeader : gmap string (list string)
}.

(** An [http.Handler], run in a process. *)
Definition Handler : Type := Inbound -> Outbound -> World -> Outbound * World.

(** [h.Set(key, value)] on an [http.Header] (the key in canonical form). *)
Definition Header_Set (key value : string) (h : gmap string (list string))
    : gmap string (list string) :=
  <[key := [value]]> h.

(** [r.WithContext(context.WithValue(r.Context(), key, value))]. *)
Definition WithValue (key : Z) (value : string) (r : Inbound) : Inbound :=
  {| Req := Req r; RemoteAddr := RemoteAddr r;
     Ctx := <[key := value]> (Ctx r); UnixNano := UnixNano r |}.

(** The closure [nextRequestID] of [NewServer], given the clock. *)
Definition nextRequestID (unixNano : Z) : string := Sprintf_d unixNano.

(** The request identifier [tracing] settles on. *)
Definition requestID_of (nextRequestID : Z -> string) (r : Inbound) : string :=
  let requestID := Header_Get (Header (Req r)) "X-Request-Id" in
  if String.eqb requestID "" then nextRequestID (UnixNano r) else requestID.

(** [tracing(nextRequestID)(next)]. *)
Definition tracing (nextRequestID : Z -> string) (next : Handler) : Handler :=
  fun r w W =>
    let requestID := requestID_of nextRequestID r in
    let r' := WithValue requestIDKey requestID r in
    let w' := {| Writer := Writer w;
                 RespHeader := Header_Set "X-Request-Id" requestID (RespHeader w) |} in
    next r' w' W.

(** The line the deferred function of [logging] prints. *)
Definition access_line (r : Inbound) : string :=
  let requestID := match Ctx r !! requestIDKey with
                   | Some id => id
                   | None => "unknown"
                   end in
  Sprintln [requestID; Method (Req r); URLPath (Req r); RemoteAddr r;
            Header_Get (Header (Req r)) "User-Agent"].

(** [logging(logger)(next)]: the line is printed when [next] has
    returned. *)
Definition logging (next : Handler) : Handler :=
  fun r w W =>
    let '(w', W') := next r w W in
    (w', emit [ELog (access_line r)] W').

(** [s.Index()] as a handler, with what it prints and the headers
    [http.Error] sets. *)
Definition Index_handler : Handler :=
  fun r w W =>
    let contentType := Header_Get (Header (Req r)) "Content-Type" in
    let contentLength := Header_Get (Header (Req r)) "Content-Length" in
    let W := emit [ELog (String.append "Received request: content-type: "
                          (String.append contentType
                            (String.append ", content-length: " contentLength)))] W in
    let '(s', writer') := Index (srv W) (Req r) (Writer w) in
    match Body (Req r) with
    | ReadErr err =>
        (* [err.Error()] is the string of [ReadErr] *)
        ({| Writer := writer';
            RespHeader :=
              Header_Set "X-Content-Type-Options" "nosniff"
                (Header_Set "Content-Type" "text/plain; charset=utf-8"
                   (RespHeader w)) |},
         emit [ELog (String.append "Error reading body: " err)] (set_srv s' W))
    | ReadOk _ =>
        ({| Writer := writer'; RespHeader := RespHeader w |}, set_srv s' W)
    end.

(** [s.Health()] as a handler. *)
Definition Health_handler : Handler :=
  fun r w W =>
    ({| Writer := Health (healthy W) (Writer w); RespHeader := RespHeader w |}, W).

(** The two handlers [NewServer] registers with the router. *)
Inductive Route := RouteIndex | RouteHealth.

Definition routed (route : Route) : Handler :=
  match route with
  | RouteIndex => Index_handler
  | RouteHealth => Health_handler
  end.

(** The [Handler] of the [http.Server] that [NewServer] builds,
    [tracing(nextRequestID)(logging(logger)(router))], for a request the
    router passes to [route]. *)
Definition ServeHTTP (route : Route) : Handler :=
  tracing nextRequestID (logging (routed route)).

(** A request on the wire: no context values yet. *)
Definition inbound (r : Request) (remote : string) (unixNano : Z) : Inbound :=
  {| Req := r; RemoteAddr := remote; Ctx := ∅; UnixNano := unixNano |}.

Definition newOutbound : Outbound :=
  {| Writer := newResponseWriter; RespHeader := ∅ |}.

(** ** The test driver (the shell script): ports, names, addresses *)

Module Driver.

Definition BASE_PORT : Z := 16998.

(** [next_port]: [echo $((${BASE_PORT}+${PARALLEL_SEQ}))], for
    [PARALLEL_SEQ] the number GNU parallel gives the job. Shell
    arithmetic is on 64-bit integers and wraps. *)
Definition next_port (PARALLEL_SEQ : Z) : Z := Int64.add BASE_PORT PARALLEL_SEQ.

(** ["${1##*/}"]: without the longest prefix that ends in a slash. *)
Fixpoint strip_dirs (s : string) : string :=
  match s with
  | EmptyString => EmptyString
  | String c rest =>
      if Strings.Contains rest "/" then strip_dirs rest
      else if Ascii.eqb c "/" then rest
      else s
  end.

(** ["${HTTP_TEST_NAME%.sh}"]: without a final [.sh]. *)
Fixpoint strip_sh (s : string) : string :=
  if String.eqb s ".sh" then EmptyString
  else match s with
       | EmptyString => EmptyString
       | String c rest => String c (strip_sh rest)
       end.

(** What [run_test] computes for the suite file [suite]. *)
Definition HTTP_TEST_NAME (suite : string) : string := strip_sh (strip_dirs suite).

Definition HTTP_TEST_ADDRESS (PARALLEL_SEQ : Z) : string :=
  String.append "localhost:" (Sprintf_d (next_port PARALLEL_SEQ)).

Definition TEST_OUTPUT_DIR (OUTPUT_DIR suite : string) : string :=
  String.append OUTPUT_DIR (String "/" (HTTP_TEST_NAME suite)).

(** The path of the suite file [name.sh] in the directory [dir]. *)
Definition suite_path (dir name : string) : string :=
  String.append dir (String "/" (String.append name ".sh")).

End Driver.

(** * Properties *)

(** ** Arithmetic of [int64] *)

Module Int64Facts.
Import Int64.

Lemma two63 : 2 ^ 63 = 9223372036854775808.
Proof. reflexivity. Qed.

Lemma two64 : 2 ^ 64 = 18446744073709551616.
Proof. reflexivity. Qed.

Lemma wrap_id (z : Z) : in_range z -> wrap z = z.
Proof.
  unfold in_range, min_int, max_int, wrap. rewrite two63, two64. intros Hz.
  rewrite Z.mod_small; lia.
Qed.

Lemma wrap_in_range (z : Z) : in_range (wrap z).
Proof.
  unfold in_range, min_int, max_int, wrap. rewrite two63, two64.
  pose proof (Z.mod_pos_bound (z + 9223372036854775808) 18446744073709551616).
  lia.
Qed.

Lemma wrap_add_wrap (a b : Z) : wrap (a + wrap b) = wrap (a + b).
Proof.
  unfold wrap.
  replace (a + ((b + 2 ^ 63) mod 2 ^ 64 - 2 ^ 63) + 2 ^ 63)
    with (a + (b + 2 ^ 63) mod 2 ^ 64) by lia.
  rewrite Zplus_mod_idemp_r. f_equal. f_equal. lia.
Qed.

Lemma add_of_len (a : Z) (n : nat) : add a (of_len n) = add a (Z.of_nat n).
Proof. unfold add, of_len. apply wrap_add_wrap. Qed.

Lemma add_exact (a b : Z) : in_range (a + b) -> add a b = a + b.
Proof. unfold add. apply wrap_id. Qed.

Lemma add_in_range (a b : Z) : in_range (add a b).
Proof. unfold add. apply wrap_in_range. Qed.

Lemma add_max_int_1 : add max_int 1 = min_int.
Proof. reflexivity. Qed.

End Int64Facts.

(** ** [strings.Split] *)

Module StringsFacts.
Import Strings.

(** [Split] returns [Count + 1] substrings. *)
Lemma Split_length (s : string) (sep : ascii) :
  List.length (Split s sep) = S (Count s sep).
Proof.
  induction s as [|c rest IH]; simpl; [reflexivity|].
  destruct (Ascii.eqb c sep); simpl.
  - now rewrite IH.
  - destruct (Split rest sep) as [|seg segs]; simpl in *; lia.
Qed.

Lemma Split_not_nil (s : string) (sep : ascii) : Split s sep <> [].
Proof.
  intros H. pose proof (Split_length s sep) as L. rewrite H in L. discriminate.
Qed.

(** Joining the substrings with the separator gives the string back. *)
Lemma Join_Split (s : string) (sep : ascii) : Join (Split s sep) sep = s.
Proof.
  induction s as [|c rest IH]; [reflexivity|].
  pose proof (Split_not_nil rest sep) as NN.
  cbn [Split]. destruct (Ascii.eqb_spec c sep) as [->|Hne].
  - destruct (Split rest sep) as [|seg segs] eqn:E; [congruence|].
    cbn [Join]. cbn [Join] in IH. now rewrite IH.
  - destruct (Split rest sep) as [|seg segs] eqn:E; [congruence|].
    destruct segs as [|seg' segs'].
    + cbn [Join] in *. now rewrite IH.
    + cbn [Join] in *. rewrite <- IH. reflexivity.
Qed.

(** No substring contains the separator. *)
Lemma Split_no_sep (s : string) (sep : ascii) :
  Forall (fun seg => Contains seg sep = false) (Split s sep).
Proof.
  induction s as [|c rest IH]; simpl.
  - constructor; [reflexivity|constructor].
  - destruct (Ascii.eqb c sep) eqn:E.
    + constructor; [reflexivity|exact IH].
    + destruct (Split rest sep) as [|seg segs].
      * constructor; [simpl; now rewrite E|constructor].
      * inversion IH; subst. constructor; [simpl; now rewrite E|assumption].
Qed.

Example Split_a_b_c : Split body_a_b_c LF = ["a"; "b"; "c"].
Proof. reflexivity. Qed.

Example Split_nl_first : Split body_nl_first LF = [""; "first"].
Proof. reflexivity. Qed.

Example Split_empty : Split "" LF = [""].
Proof. reflexivity. Qed.

End StringsFacts.

(** ** The ingestion handler *)

Section IndexFacts.

Import Strings.

Lemma messages_of_allow_listed (contentType body : string) :
  messages_of contentType body =
  if allow_listed contentType then Split body LF else [].
Proof.
  unfold messages_of, allow_listed.
  repeat match goal with |- context [String.eqb ?a ?b] =>
    destruct (String.eqb a b); cbn [orb]; try reflexivity end.
Qed.


Lemma Index_unfold (s : Server) (r : Request) (w : ResponseWriter) :
  Index s r w =
  Index_serve (Index_count s) (Header_Get (Header r) "Content-Type") (Body r) w.
Proof. reflexivity. Qed.

Lemma Index_tally_nil (s : Server) (byteLen : nat) : Index_tally s byteLen [] = s.
Proof. reflexivity. Qed.

Lemma Index_tally_RequestCount (s : Server) (byteLen : nat) (ms : list string) :
  RequestCount (Index_tally s byteLen ms) = RequestCount s.
Proof. destruct ms; reflexivity. Qed.

Lemma Index_tally_MessageCount (s : Server) (byteLen : nat) (ms : list string) :
  ms <> [] ->
  MessageCount (Index_tally s byteLen ms) =
  Int64.add (MessageCount s) (Z.of_nat (List.length ms)).
Proof.
  destruct ms as [|m ms']; [congruence|]. intros _.
  cbn [Index_tally MessageCount]. apply Int64Facts.add_of_len.
Qed.

Lemma Index_tally_ByteTotal (s : Server) (byteLen : nat) (ms : list string) :
  ms <> [] ->
  ByteTotal (Index_tally s byteLen ms) =
  Int64.add (ByteTotal s) (Z.of_nat byteLen).
Proof.
  destruct ms as [|m ms']; [congruence|]. intros _.
  cbn [Index_tally ByteTotal]. apply Int64Facts.add_of_len.
Qed.

Lemma Index_serve_RequestCount (s : Server) (ct : string) (rd : ReadResult)
    (w : ResponseWriter) :
  RequestCount (fst (Index_serve s ct rd w)) = RequestCount s.
Proof.
  destruct rd; cbn [Index_serve fst]; [apply Index_tally_RequestCount|reflexivity].
Qed.

(** A status written to a fresh response is the status of the response:
    neither [Fprintln] nor a second [WriteHeader] changes it. *)
Lemma Fprintln_WriteHeader_status (a : string) (code : Z) (w : ResponseWriter) :
  StatusCode w = None ->
  StatusCode (Fprintln a (WriteHeader code w)) = Some code.
Proof.
  intros Hw. unfold Fprintln, Write, WriteHeader. rewrite Hw. cbn [StatusCode].
  destruct (bodyAllowedForStatus code); reflexivity.
Qed.

End IndexFacts.

(** C1. For a request whose Content-Type is one of the four allow-listed
    values and whose body is [body], [Index] adds to [MessageCount] the
    number of substrings [strings.Split(body, "\n")] returns (one more
    than there are line feeds, empty substrings included) and to
    [ByteTotal] the length of [body] in bytes, both with [int64] addition,
    which is the exact sum whenever that sum is an [int64]. In particular
    ["a\nb\nc"] as [text/plain] adds 3 and 5. *)
Theorem Index_allow_listed_adds_segments_and_bytes :
  (forall (s : Server) (r : Request) (w : ResponseWriter) (body : string),
     allow_listed (Header_Get (Header r) "Content-Type") = true ->
     Body r = ReadOk body ->
     let s' := fst (Index s r w) in
     let segments := List.length (Strings.Split body Strings.LF) in
     MessageCount s' = Int64.add (MessageCount s) (Z.of_nat segments) /\
     ByteTotal s' = Int64.add (ByteTotal s) (Z.of_nat (String.length body)) /\
     segments = S (Strings.Count body Strings.LF) /\
     (Int64.in_range (MessageCount s + Z.of_nat segments) ->
      MessageCount s' = MessageCount s + Z.of_nat segments) /\
     (Int64.in_range (ByteTotal s + Z.of_nat (String.length body)) ->
      ByteTotal s' = ByteTotal s + Z.of_nat (String.length body))) /\
  (forall (s : Server) (w : ResponseWriter),
     let s' := fst (Index s (request "text/plain" (ReadOk body_a_b_c)) w) in
     MessageCount s' = Int64.add (MessageCount s) 3 /\
     ByteTotal s' = Int64.add (ByteTotal s) 5).
Proof.
  split.
  - intros s r w body Hct Hbody s' segments.
    assert (Hm : MessageCount s' = Int64.add (MessageCount s) (Z.of_nat segments)).
    { subst s' segments. rewrite Index_unfold, Hbody. cbn [Index_serve fst].
      rewrite messages_of_allow_listed, Hct.
      rewrite Index_tally_MessageCount by apply StringsFacts.Split_not_nil.
      reflexivity. }
    assert (Hb : ByteTotal s' =
                 Int64.add (ByteTotal s) (Z.of_nat (String.length body))).
    { subst s'. rewrite Index_unfold, Hbody. cbn [Index_serve fst].
      rewrite messages_of_allow_listed, Hct.
      rewrite Index_tally_ByteTotal by apply StringsFacts.Split_not_nil.
      reflexivity. }
    repeat split.
    + exact Hm.
    + exact Hb.
    + apply StringsFacts.Split_length.
    + intros Hr. rewrite Hm. now apply Int64Facts.add_exact.
    + intros Hr. rewrite Hb. now apply Int64Facts.add_exact.
  - intros s w. split; reflexivity.
Qed.

Lemma Index_allow_listed_adds_segments_and_bytes_witness :
  let s' := fst (Index (NewServer "localhost:8080")
                   (request "text/plain" (ReadOk body_a_b_c)) newResponseWriter) in
  MessageCount s' = 3 /\ ByteTotal s' = 5.
Proof.
  destruct (proj1 Index_allow_listed_adds_segments_and_bytes
              (NewServer "localhost:8080")
              (request "text/plain" (ReadOk body_a_b_c))
              newResponseWriter body_a_b_c)
    as (_ & _ & _ & Hm & Hb).
  - reflexivity.
  - reflexivity.
  - split.
    + apply Hm. vm_compute. split; discriminate.
    + apply Hb. vm_compute. split; discriminate.
Defined.

(** ** Runs and the server state *)

Lemma gracefulStop_srv (sig : Signal) (write_ok shutdown_ok : bool) (W : World) :
  srv (gracefulStop sig write_ok shutdown_ok W) = srv W.
Proof.
  unfold gracefulStop. destruct write_ok; cbn [WriteSummary].
  - cbn [emit exited]. destruct (exited W); [reflexivity|].
    destruct shutdown_ok; reflexivity.
  - reflexivity.
Qed.

(** Only a request to [Index] changes the server. *)
Lemma step_srv (W : World) (op : Op) :
  srv (step W op) =
  match exited W, op with
  | None, OpIndex r => fst (Index (srv W) r newResponseWriter)
  | _, _ => srv W
  end.
Proof.
  unfold step. destruct (exited W); [reflexivity|].
  destruct op as [r|r| |sig write_ok shutdown_ok]; try reflexivity.
  - now destruct (notified W).
  - destruct (notified W); [apply gracefulStop_srv|reflexivity].
Qed.

Lemma run_cons (op : Op) (ops : list Op) (W : World) :
  run (op :: ops) W = run ops (step W op).
Proof. reflexivity. Qed.

Lemma Index_all_cons (r : Request) (rs : list Request) (s : Server) :
  Index_all (r :: rs) s = Index_all rs (fst (Index s r newResponseWriter)).
Proof. reflexivity. Qed.

Lemma Index_all_app (rs1 rs2 : list Request) (s : Server) :
  Index_all (rs1 ++ rs2) s = Index_all rs2 (Index_all rs1 s).
Proof. unfold Index_all. apply fold_left_app. Qed.

(** The server after a run is the server after the requests the run
    has passed to [Index]. *)
Lemma run_srv (ops : list Op) (W : World) :
  srv (run ops W) = Index_all (served W ops) (srv W).
Proof.
  revert W. induction ops as [|op ops IH]; intros W; [reflexivity|].
  rewrite run_cons, IH. cbn [served]. rewrite Index_all_app, step_srv.
  destruct (exited W); [reflexivity|].
  destruct op; reflexivity.
Qed.

(** ** [FirstMessage] *)

Lemma Index_FirstMessage (s : Server) (r : Request) (w : ResponseWriter) :
  FirstMessage (fst (Index s r w)) =
  if String.eqb (FirstMessage s) "" then request_firstMessage r
  else FirstMessage s.
Proof.
  rewrite Index_unfold. unfold request_firstMessage, request_messages.
  destruct (Body r) as [body|err]; cbn [Index_serve fst].
  - destruct (messages_of _ body) as [|m ms]; cbn [Index_tally FirstMessage hd].
    + cbn [Index_count FirstMessage].
      destruct (String.eqb_spec (FirstMessage s) ""); congruence.
    + cbn [Index_count FirstMessage].
      destruct (String.eqb_spec (FirstMessage s) ""); cbn [andb]; [|reflexivity].
      destruct (String.eqb_spec m ""); cbn [negb]; congruence.
  - cbn [Index_count FirstMessage hd].
    destruct (String.eqb_spec (FirstMessage s) ""); congruence.
Qed.

(** C2, as the specification words it, fails: after the single request
    ["\nfirst"] as [text/plain] the first non-empty segment sent is
    [first], but [FirstMessage] is still empty. *)
Lemma FirstMessage_not_first_nonempty_segment :
  let rs := [request "text/plain" (ReadOk body_nl_first)] in
  claimed_FirstMessage rs = "first" /\
  FirstMessage (Index_all rs (NewServer "localhost:8080")) = "" /\
  FirstMessage (Index_all rs (NewServer "localhost:8080")) <> claimed_FirstMessage rs.
Proof. repeat split. vm_compute. discriminate. Qed.

(** C2, amended. [FirstMessage] looks at [messages[0]] of each request
    only. Over any sequence of requests it is the value it had when that
    was not empty (so it is never overwritten once set, whatever the later
    requests start with), and otherwise the first non-empty [messages[0]]
    among the requests in order; on a new server it starts empty. The
    single request ["\nfirst"], whose [messages[0]] is empty, leaves it
    empty and puts [first] in [LastMessage]. *)
Theorem FirstMessage_is_first_nonempty_leading_segment :
  (forall (rs : list Request) (s : Server),
     FirstMessage (Index_all rs s) =
     if String.eqb (FirstMessage s) "" then leading_FirstMessage rs
     else FirstMessage s) /\
  (forall (address : string) (rs : list Request),
     FirstMessage (Index_all rs (NewServer address)) = leading_FirstMessage rs) /\
  (forall (W : World) (ops : list Op),
     FirstMessage (srv (run ops W)) =
     if String.eqb (FirstMessage (srv W)) "" then leading_FirstMessage (served W ops)
     else FirstMessage (srv W)) /\
  (forall (address : string),
     let s' := Index_all [request "text/plain" (ReadOk body_nl_first)]
                 (NewServer address) in
     FirstMessage s' = "" /\ LastMessage s' = "first").
Proof.
  assert (General : forall (rs : list Request) (s : Server),
     FirstMessage (Index_all rs s) =
     if String.eqb (FirstMessage s) "" then leading_FirstMessage rs
     else FirstMessage s).
  { induction rs as [|r rs IH]; intros s.
    - cbn. destruct (String.eqb_spec (FirstMessage s) ""); congruence.
    - rewrite Index_all_cons, IH, Index_FirstMessage.
      unfold leading_FirstMessage. cbn [List.map first_nonempty].
      destruct (String.eqb_spec (FirstMessage s) "") as [E|NE].
      + destruct (String.eqb_spec (request_firstMessage r) ""); reflexivity.
      + destruct (String.eqb_spec (FirstMessage s) ""); congruence. }
  split; [exact General|]. split; [|split].
  - intros address rs. rewrite General. reflexivity.
  - intros W ops. rewrite run_srv. apply General.
  - intros address. split; reflexivity.
Qed.

(** ** The failed body read *)

(** C3, as stated, fails: a request whose body cannot be read has
    already been counted in [RequestCount]. *)
Lemma read_error_counts_the_request :
  let s := NewServer "localhost:8080" in
  let r := request "text/plain" (ReadErr "unexpected EOF") in
  RequestCount s = 0 /\
  RequestCount (fst (Index s r newResponseWriter)) = 1 /\
  RequestCount (fst (Index s r newResponseWriter)) <> RequestCount s.
Proof. repeat split. vm_compute. discriminate. Qed.

(** C3, amended. When the body cannot be read, [Index] answers 400 and
    leaves [MessageCount], [ByteTotal], [FirstMessage] and [LastMessage]
    as they were; [RequestCount] has been incremented by one. *)
Theorem read_error_400_and_only_RequestCount_changes :
  forall (s : Server) (r : Request) (w : ResponseWriter) (err : string),
    Body r = ReadErr err ->
    StatusCode w = None ->
    let s' := fst (Index s r w) in
    StatusCode (snd (Index s r w)) = Some StatusBadRequest /\
    MessageCount s' = MessageCount s /\
    ByteTotal s' = ByteTotal s /\
    FirstMessage s' = FirstMessage s /\
    LastMessage s' = LastMessage s /\
    address s' = address s /\
    RequestCount s' = Int64.add (RequestCount s) 1.
Proof.
  intros s r w err Hbody Hw s'. subst s'.
  rewrite Index_unfold, Hbody. cbn [Index_serve fst snd].
  split; [|repeat split].
  unfold http_Error. now apply Fprintln_WriteHeader_status.
Qed.

Lemma read_error_400_and_only_RequestCount_changes_witness :
  let s := NewServer "localhost:8080" in
  let r := request "text/plain" (ReadErr "unexpected EOF") in
  StatusCode (snd (Index s r newResponseWriter)) = Some 400 /\
  MessageCount (fst (Index s r newResponseWriter)) = 0 /\
  RequestCount (fst (Index s r newResponseWriter)) = 1.
Proof.
  destruct (read_error_400_and_only_RequestCount_changes
              (NewServer "localhost:8080")
              (request "text/plain" (ReadErr "unexpected EOF"))
              newResponseWriter "unexpected EOF" eq_refl eq_refl)
    as (Hst & Hm & _ & _ & _ & _ & Hr).
  intros s r. split; [exact Hst | split; [exact Hm | exact Hr]].
Defined.

(** ** Content types outside the allow-list *)

(** Without a matching content type the handler only counts the request. *)
Lemma Index_not_allow_listed (s : Server) (r : Request) (w : ResponseWriter) :
  allow_listed (Header_Get (Header r) "Content-Type") = false ->
  fst (Index s r w) = Index_count s.
Proof.
  intros Hct. rewrite Index_unfold.
  destruct (Body r) as [body|err]; cbn [Index_serve fst]; [|reflexivity].
  now rewrite messages_of_allow_listed, Hct.
Qed.

Lemma Index_ReadOk_status (s : Server) (r : Request) (w : ResponseWriter)
    (body : string) :
  Body r = ReadOk body ->
  StatusCode w = None ->
  StatusCode (snd (Index s r w)) = Some StatusNoContent.
Proof.
  intros Hbody Hw. rewrite Index_unfold, Hbody. cbn [Index_serve snd].
  now apply Fprintln_WriteHeader_status.
Qed.

(** C4. For a request whose Content-Type is not one of the four
    allow-listed values, [Index] leaves [MessageCount] and [ByteTotal]
    (and the two messages) as they were, whatever the body is, and
    answers a body it could read with 204; so for ["x"] sent as
    [application/xml]. *)
Theorem other_content_type_tallies_nothing_and_answers_204 :
  (forall (s : Server) (r : Request) (w : ResponseWriter),
     allow_listed (Header_Get (Header r) "Content-Type") = false ->
     let s' := fst (Index s r w) in
     MessageCount s' = MessageCount s /\
     ByteTotal s' = ByteTotal s /\
     FirstMessage s' = FirstMessage s /\
     LastMessage s' = LastMessage s /\
     (forall body : string,
        Body r = ReadOk body -> StatusCode w = None ->
        StatusCode (snd (Index s r w)) = Some StatusNoContent)) /\
  (forall (s : Server),
     let out := Index s (request "application/xml" (ReadOk "x")) newResponseWriter in
     MessageCount (fst out) = MessageCount s /\
     ByteTotal (fst out) = ByteTotal s /\
     StatusCode (snd out) = Some 204).
Proof.
  split.
  - intros s r w Hct s'. subst s'. rewrite (Index_not_allow_listed s r w Hct).
    repeat split. intros body Hbody Hw. now apply (Index_ReadOk_status s r w body).
  - intros s. repeat split.
Qed.

Lemma other_content_type_tallies_nothing_and_answers_204_witness :
  let out := Index (NewServer "localhost:8080")
               (request "application/xml" (ReadOk "x")) newResponseWriter in
  MessageCount (fst out) = 0 /\ ByteTotal (fst out) = 0 /\
  StatusCode (snd out) = Some 204.
Proof.
  destruct (proj1 other_content_type_tallies_nothing_and_answers_204
              (NewServer "localhost:8080")
              (request "application/xml" (ReadOk "x"))
              newResponseWriter eq_refl)
    as (Hm & Hb & _ & _ & Hst).
  intros out. split; [exact Hm | split; [exact Hb |]].
  exact (Hst "x" eq_refl eq_refl).
Defined.

(** ** [RequestCount] *)

Lemma Index_RequestCount (s : Server) (r : Request) (w : ResponseWriter) :
  RequestCount (fst (Index s r w)) = Int64.add (RequestCount s) 1.
Proof. rewrite Index_unfold. apply Index_serve_RequestCount. Qed.

Lemma wrap_wrap_add (a b : Z) : Int64.wrap (Int64.wrap a + b) = Int64.wrap (a + b).
Proof.
  rewrite (Z.add_comm (Int64.wrap a)), Int64Facts.wrap_add_wrap.
  f_equal. lia.
Qed.

(** After [n] requests the count is the old one plus [n], in [int64]. *)
Lemma Index_all_RequestCount (rs : list Request) (s : Server) :
  Int64.in_range (RequestCount s) ->
  RequestCount (Index_all rs s) =
  Int64.add (RequestCount s) (Z.of_nat (List.length rs)).
Proof.
  revert s. induction rs as [|r rs IH]; intros s Hs.
  - cbn [Index_all fold_left List.length]. unfold Int64.add.
    rewrite Z.add_0_r. symmetry. now apply Int64Facts.wrap_id.
  - rewrite Index_all_cons, IH; rewrite Index_RequestCount.
    + unfold Int64.add. rewrite wrap_wrap_add. f_equal.
      cbn [List.length]. lia.
    + apply Int64Facts.add_in_range.
Qed.

(** C5. Every call of [Index] increments [RequestCount] by one, whatever
    the request is and however it ends: the increment is the first thing
    the handler does, the state the body is read in already has it, and
    nothing after it touches [RequestCount]. The increment is [int64]
    addition, the exact successor below the largest [int64]; over
    a sequence of requests the count goes up by their number. *)
Theorem RequestCount_incremented_once_per_request :
  forall (s : Server) (r : Request) (w : ResponseWriter),
    RequestCount (fst (Index s r w)) = Int64.add (RequestCount s) 1 /\
    Index s r w =
      Index_serve (Index_count s) (Header_Get (Header r) "Content-Type") (Body r) w /\
    RequestCount (Index_count s) = Int64.add (RequestCount s) 1 /\
    (forall (s0 : Server) (ct : string) (rd : ReadResult) (w0 : ResponseWriter),
       RequestCount (fst (Index_serve s0 ct rd w0)) = RequestCount s0) /\
    (Int64.in_range (RequestCount s + 1) ->
     RequestCount (fst (Index s r w)) = RequestCount s + 1) /\
    (forall rs : list Request,
       Int64.in_range (RequestCount s) ->
       RequestCount (Index_all rs s) =
       Int64.add (RequestCount s) (Z.of_nat (List.length rs))).
Proof.
  intros s r w. repeat split.
  - apply Index_RequestCount.
  - apply Index_serve_RequestCount.
  - intros Hr. rewrite Index_RequestCount. now apply Int64Facts.add_exact.
  - intros rs Hs. now apply Index_all_RequestCount.
Qed.

Lemma RequestCount_incremented_once_per_request_witness :
  RequestCount (fst (Index (NewServer "localhost:8080")
                       (request "application/xml" (ReadErr "unexpected EOF"))
                       newResponseWriter)) = 1 /\
  RequestCount (Index_all [request "text/plain" (ReadOk body_a_b_c);
                           request "application/xml" (ReadOk "x");
                           request "text/plain" (ReadErr "unexpected EOF")]
                  (NewServer "localhost:8080")) = 3.
Proof.
  destruct (RequestCount_incremented_once_per_request
              (NewServer "localhost:8080")
              (request "application/xml" (ReadErr "unexpected EOF"))
              newResponseWriter)
    as (_ & _ & _ & _ & Hone & Hall).
  split.
  - apply Hone. vm_compute. split; discriminate.
  - apply Hall. vm_compute. split; discriminate.
Defined.

(** ** Exact matching of the content type *)



(** ** The summary *)

Module UTF8Facts.
Import UTF8.

(** Valid UTF-8 goes through the encoder unchanged. *)
Lemma Coerce_Valid_bounded (n : nat) :
  forall s : string,
    (String.length s <= n)%nat -> Valid s = true -> Coerce s = s.
Proof.
  induction n as [|n IH]; intros s Hlen Hv.
  - destruct s; [reflexivity|cbn in Hlen; lia].
  - destruct s as [|c0 t0]; [reflexivity|].
    cbn [String.length] in Hlen.
    cbn [Valid] in Hv. cbn [Coerce].
    destruct (byte c0 <? RuneSelf).
    { rewrite IH; [reflexivity|lia|exact Hv]. }
    destruct (first (byte c0)) as [[[sz lo] hi]|]; [|discriminate].
    destruct t0 as [|c1 t1]; [discriminate|].
    cbn [String.length] in Hlen.
    destruct (between lo hi c1); cbn [negb] in *; [|discriminate].
    destruct (sz =? 2)%nat.
    { rewrite IH; [reflexivity|lia|exact Hv]. }
    destruct t1 as [|c2 t2]; [discriminate|].
    cbn [String.length] in Hlen.
    destruct (cont c2); cbn [negb] in *; [|discriminate].
    destruct (sz =? 3)%nat.
    { rewrite IH; [reflexivity|lia|exact Hv]. }
    destruct t2 as [|c3 t3]; [discriminate|].
    cbn [String.length] in Hlen.
    destruct (cont c3); cbn [negb] in *; [|discriminate].
    rewrite IH; [reflexivity|lia|exact Hv].
Qed.

Lemma Coerce_Valid (s : string) : Valid s = true -> Coerce s = s.
Proof. apply (Coerce_Valid_bounded (String.length s)). lia. Qed.

(** A byte that starts no sequence becomes U+FFFD. *)
Lemma Coerce_ff : Coerce body_ff = replacement.
Proof. reflexivity. Qed.

Lemma Valid_first : Valid "first" = true.
Proof. reflexivity. Qed.

End UTF8Facts.

Lemma effects_emit (es : list Effect) (W : World) :
  effects (emit es W) = effects W ++ es.
Proof. reflexivity. Qed.

Lemma since_app (W W' : World) (es : list Effect) :
  effects W' = effects W ++ es -> since W W' = es.
Proof.
  intros H. unfold since. rewrite H. apply drop_app_length.
Qed.

(** The effects of the signal goroutine, case by case. *)
Lemma gracefulStop_effects (sig : Signal) (write_ok shutdown_ok : bool) (W : World) :
  exited W = None ->
  effects (gracefulStop sig write_ok shutdown_ok W) =
  effects W ++
  (ELog "Caught sig: %+v" ::
   if write_ok then
     [EWriteFile summaryPath (Marshal (srv W));
      ELog "Wrote activity summary to %s";
      ESetKeepAlivesEnabled false;
      EShutdown] ++
     (if shutdown_ok then [ELog "Server stopped"; EExit 0]
      else [ELog "Could not gracefully shutdown the server: %v\n"; EExit 1])
   else [ELog "WriteFile error"; EExit 1]).
Proof.
  intros Hrun. unfold gracefulStop.
  destruct write_ok; cbn [WriteSummary].
  - cbn [emit exited effects srv]. rewrite Hrun.
    destruct shutdown_ok; cbn; rewrite <- !app_assoc; reflexivity.
  - cbn. rewrite <- !app_assoc. reflexivity.
Qed.

Lemma gracefulStop_healthy (sig : Signal) (write_ok shutdown_ok : bool) (W : World) :
  healthy (gracefulStop sig write_ok shutdown_ok W) = healthy W.
Proof.
  unfold gracefulStop. destruct write_ok; cbn [WriteSummary].
  - cbn [emit exited]. destruct (exited W); [reflexivity|].
    destruct shutdown_ok; reflexivity.
  - reflexivity.
Qed.

Lemma gracefulStop_files (sig : Signal) (shutdown_ok : bool) (W : World) :
  files (gracefulStop sig true shutdown_ok W) =
  <[summaryPath := Marshal (srv W)]> (files W).
Proof.
  unfold gracefulStop. cbn [WriteSummary emit exited].
  destruct (exited W); [reflexivity|]. destruct shutdown_ok; reflexivity.
Qed.

Local Ltac walk_effects i Hi :=
  cbn in Hi;
  first
    [ discriminate Hi
    | destruct i as [|i];
      [ first [ discriminate Hi
              | exists 1%nat; split; [lia|reflexivity] ]
      | walk_effects i Hi ] ].

(** C6, as stated, fails for the two strings: a body of the byte 0xFF as
    [text/plain] makes [FirstMessage] that byte, and the summary written
    at the signal has U+FFFD (the bytes EF BF BD) under [first_message]. *)
Lemma summary_first_message_differs_from_FirstMessage :
  let W := run [OpIndex (request "text/plain" (ReadOk body_ff))]
             (Listen true (boot "localhost:8080" ∅)) in
  let W' := run [OpSignal SIGTERM true true] W in
  FirstMessage (srv W) = body_ff /\
  (files W' !! summaryPath) ≫= field "first_message"
    = Some (JString UTF8.replacement) /\
  (files W' !! summaryPath) ≫= field "first_message"
    <> Some (JString (FirstMessage (srv W))).
Proof. repeat split. vm_compute. discriminate. Qed.

(** C6, amended. The signal goroutine of a running process writes the
    summary before it calls [SetKeepAlivesEnabled(false)] and [Shutdown];
    when the write fails, it never calls them. The document written is
    [json.Marshal] of the server as it is when the signal is handled:
    [byte_total], [message_count] and [request_count] are the three
    counters, and [first_message] and [last_message] are the two strings
    as [encoding/json] writes them, every byte that is not part of valid
    UTF-8 replaced by U+FFFD; for strings that are valid UTF-8 these are
    the strings themselves. The goroutine changes no counter. *)
Theorem summary_written_before_shutdown_with_coerced_strings :
  forall (sig : Signal) (write_ok shutdown_ok : bool) (W : World),
    exited W = None ->
    let W' := gracefulStop sig write_ok shutdown_ok W in
    let doc := Marshal (srv W) in
    srv W' = srv W /\
    effects W' = effects W ++ since W W' /\
    preceded_by (EWriteFile summaryPath doc) EShutdown (since W W') /\
    preceded_by (EWriteFile summaryPath doc) (ESetKeepAlivesEnabled false)
      (since W W') /\
    (write_ok = true ->
     files W' !! summaryPath = Some doc /\ In EShutdown (since W W')) /\
    (write_ok = false ->
     ~ In EShutdown (since W W') /\ exited W' = Some (ExitCode 1)) /\
    (notified W = true -> step W (OpSignal sig write_ok shutdown_ok) = W') /\
    field "byte_total" doc = Some (JNumber (ByteTotal (srv W))) /\
    field "message_count" doc = Some (JNumber (MessageCount (srv W))) /\
    field "request_count" doc = Some (JNumber (RequestCount (srv W))) /\
    field "first_message" doc =
      Some (JString (UTF8.Coerce (FirstMessage (srv W)))) /\
    field "last_message" doc =
      Some (JString (UTF8.Coerce (LastMessage (srv W)))) /\
    (UTF8.Valid (FirstMessage (srv W)) = true ->
     field "first_message" doc = Some (JString (FirstMessage (srv W)))) /\
    (UTF8.Valid (LastMessage (srv W)) = true ->
     field "last_message" doc = Some (JString (LastMessage (srv W)))).
Proof.
  intros sig write_ok shutdown_ok W Hrun W' doc.
  pose proof (gracefulStop_effects sig write_ok shutdown_ok W Hrun) as He.
  fold W' in He. pose proof (since_app _ _ _ He) as Hs.
  split; [apply gracefulStop_srv|].
  split; [rewrite Hs; exact He|].
  split.
  { rewrite Hs. fold doc. intros i Hi.
    destruct write_ok, shutdown_ok; walk_effects i Hi. }
  split.
  { rewrite Hs. fold doc. intros i Hi.
    destruct write_ok, shutdown_ok; walk_effects i Hi. }
  split.
  { intros ->. split.
    - subst W'. rewrite gracefulStop_files. apply lookup_insert_eq.
    - rewrite Hs. cbn. tauto. }
  split.
  { intros ->. split.
    - rewrite Hs. cbn. intros [H|[H|[H|[]]]]; discriminate.
    - reflexivity. }
  split.
  { intros Hn. unfold step. now rewrite Hrun, Hn. }
  repeat split.
  - intros Hv. subst doc. cbn. now rewrite UTF8Facts.Coerce_Valid.
  - intros Hv. subst doc. cbn. now rewrite UTF8Facts.Coerce_Valid.
Qed.

Lemma summary_written_before_shutdown_with_coerced_strings_witness :
  let W := run [OpIndex (request "text/plain" (ReadOk body_a_b_c))]
             (Listen true (boot "localhost:8080" ∅)) in
  let W' := gracefulStop SIGTERM true true W in
  files W' !! summaryPath =
    Some [("byte_total", JNumber 5); ("first_message", JString "a");
          ("last_message", JString "c"); ("message_count", JNumber 3);
          ("request_count", JNumber 1)] /\
  preceded_by (EWriteFile summaryPath (Marshal (srv W))) EShutdown (since W W').
Proof.
  intros W W'.
  destruct (summary_written_before_shutdown_with_coerced_strings
              SIGTERM true true W eq_refl)
    as (_ & _ & Hbefore & _ & Hfile & _).
  split.
  - exact (proj1 (Hfile eq_refl)).
  - exact Hbefore.
Defined.

(** ** The [healthy] flag *)

Lemma filter_app_nil {A : Type} (f : A -> bool) (l1 l2 : list A) :
  List.filter f l1 = [] -> List.filter f l2 = [] -> List.filter f (l1 ++ l2) = [].
Proof. intros H1 H2. now rewrite List.filter_app, H1, H2. Qed.

(** No step of a run stores to [healthy] or calls [ListenAndServe]. *)
Lemma step_quiet (W : World) (op : Op) :
  healthy (step W op) = healthy W /\
  exists post : list Effect,
    effects (step W op) = effects W ++ post /\
    List.filter is_store post = [] /\ List.filter is_bind post = [].
Proof.
  unfold step. destruct (exited W) eqn:Hrun.
  { split; [reflexivity|]. exists []. now rewrite app_nil_r. }
  destruct op as [r|r| |sig write_ok shutdown_ok].
  - split; [reflexivity|]. exists []. cbn. now rewrite app_nil_r.
  - split; [reflexivity|]. exists []. now rewrite app_nil_r.
  - destruct (notified W).
    + split; [reflexivity|]. eexists. split; [reflexivity|]. now split.
    + split; [reflexivity|]. exists []. now rewrite app_nil_r.
  - destruct (notified W).
    + split; [apply gracefulStop_healthy|].
      eexists. split; [now apply gracefulStop_effects|].
      destruct write_ok, shutdown_ok; now split.
    + split; [reflexivity|]. exists []. cbn. now rewrite app_nil_r.
Qed.

Lemma run_quiet (ops : list Op) (W : World) :
  healthy (run ops W) = healthy W /\
  exists post : list Effect,
    effects (run ops W) = effects W ++ post /\
    List.filter is_store post = [] /\ List.filter is_bind post = [].
Proof.
  revert W. induction ops as [|op ops IH]; intros W.
  - split; [reflexivity|]. exists []. cbn. now rewrite app_nil_r.
  - rewrite run_cons.
    destruct (IH (step W op)) as (Hh & post2 & He2 & Hs2 & Hb2).
    destruct (step_quiet W op) as (Hh1 & post1 & He1 & Hs1 & Hb1).
    split; [congruence|].
    exists (post1 ++ post2). rewrite He2, He1, <- app_assoc.
    split; [reflexivity|]. split; now apply filter_app_nil.
Qed.

Lemma Listen_effects (bind_ok : bool) (W : World) :
  effects (Listen bind_ok W) =
  effects W ++
  [ENotify SIGTERM; ENotify SIGINT; ELog "Server is ready to handle requests at"] ++
  [EStoreHealthy 1; EListenAndServe (address (srv W))] ++
  (if bind_ok then [] else [ELog "Could not listen on %s: %v\n"; EExit 1]).
Proof.
  unfold Listen, ListenAndServe, Listen_ready.
  destruct bind_ok; cbn; rewrite <- !app_assoc; reflexivity.
Qed.

Lemma Listen_healthy (bind_ok : bool) (W : World) : healthy (Listen bind_ok W) = 1.
Proof. destruct bind_ok; reflexivity. Qed.

(** C7, as stated, fails: [Listen] stores [healthy] before it calls
    [ListenAndServe]. At the store the listener is not bound and no bind
    has been attempted; when the bind then fails, the flag is ready (and
    [Health] would answer 204) although the listener never served. *)
Lemma healthy_ready_before_the_bind :
  let W0 := boot "localhost:8080" ∅ in
  let W1 := Listen_ready W0 in
  let W2 := Listen false W0 in
  healthy W0 = 0 /\
  healthy W1 = 1 /\ listener W1 = NotListening /\
  List.filter is_bind (effects W1) = [] /\
  healthy W2 = 1 /\ listener W2 = NotListening /\
  StatusCode (health_response W2) = Some 204.
Proof. repeat split. Qed.

(** C7, amended. In the life of a process ([NewServer], [Listen], then
    any requests, ticks and signals) [healthy] is stored exactly once, with
    the value 1, turning it from 0 to 1: [Listen] stores it right before
    it calls [ListenAndServe], so before the bind is attempted and whether
    or not the bind succeeds, while the listener is not yet listening. *)
Theorem healthy_stored_once_right_before_ListenAndServe :
  forall (address : string) (disk : gmap string Json) (bind_ok : bool)
         (ops : list Op),
    let W0 := boot address disk in
    let W := run ops (Listen bind_ok W0) in
    healthy W0 = 0 /\
    healthy (Listen_ready W0) = 1 /\
    listener (Listen_ready W0) = NotListening /\
    List.filter is_bind (effects (Listen_ready W0)) = [] /\
    healthy W = 1 /\
    List.filter is_store (effects W) = [EStoreHealthy 1] /\
    List.filter is_bind (effects W) = [EListenAndServe address] /\
    exists pre post : list Effect,
      effects W = pre ++ [EStoreHealthy 1; EListenAndServe address] ++ post /\
      List.filter is_store pre = [] /\ List.filter is_bind pre = [] /\
      List.filter is_store post = [] /\ List.filter is_bind post = [].
Proof.
  intros address disk bind_ok ops W0 W.
  destruct (run_quiet ops (Listen bind_ok W0)) as (Hh & post & He & Hs & Hb).
  fold W in Hh, He. rewrite Listen_effects in He.
  set (tail := if bind_ok then []
               else [ELog "Could not listen on %s: %v\n"; EExit 1]) in He.
  assert (Hts : List.filter is_store tail = []) by (now destruct bind_ok).
  assert (Htb : List.filter is_bind tail = []) by (now destruct bind_ok).
  split; [reflexivity|]. split; [reflexivity|]. split; [reflexivity|].
  split; [reflexivity|].
  split; [rewrite Hh; apply Listen_healthy|].
  split; [rewrite He, !List.filter_app, Hs, Hts; reflexivity|].
  split; [rewrite He, !List.filter_app, Hb, Htb; reflexivity|].
  exists (effects W0 ++
          [ENotify SIGTERM; ENotify SIGINT;
           ELog "Server is ready to handle requests at"]), (tail ++ post).
  split.
  { rewrite He, <- !app_assoc. reflexivity. }
  split; [reflexivity|]. split; [reflexivity|].
  split; now apply filter_app_nil.
Qed.

Lemma run_healthy (ops : list Op) (W : World) : healthy (run ops W) = healthy W.
Proof. apply run_quiet. Qed.

(** C8. [Health] answers 204 when [healthy] is 1 and 503 otherwise, and
    changes nothing in the process. Nothing clears the flag: [Listen]
    stores 1, and neither a request, a tick, a signal with its shutdown
    nor [WriteSummary] stores to it, so once it is 1 it is 1 after any
    run. *)
Theorem Health_answers_by_flag_and_flag_is_never_cleared :
  forall W : World,
    (healthy W = 1 -> StatusCode (health_response W) = Some StatusNoContent) /\
    (healthy W <> 1 ->
     StatusCode (health_response W) = Some StatusServiceUnavailable) /\
    (forall r : Request, step W (OpHealth r) = W) /\
    (forall ops : list Op, healthy W = 1 -> healthy (run ops W) = 1) /\
    (forall ops : list Op, healthy (run ops W) = healthy W) /\
    (forall bind_ok : bool, healthy (Listen bind_ok W) = 1) /\
    (forall (sig : Signal) (write_ok shutdown_ok : bool),
       healthy (gracefulStop sig write_ok shutdown_ok W) = healthy W) /\
    (forall write_ok : bool, healthy (WriteSummary write_ok W) = healthy W).
Proof.
  intros W. repeat split.
  - intros H. unfold health_response, Health. now rewrite H.
  - intros H. unfold health_response, Health.
    destruct (Z.eqb_spec (healthy W) 1); [contradiction|reflexivity].
  - intros r. unfold step. now destruct (exited W).
  - intros ops H. now rewrite run_healthy.
  - intros ops. apply run_healthy.
  - intros bind_ok. apply Listen_healthy.
  - intros sig write_ok shutdown_ok. apply gracefulStop_healthy.
  - intros write_ok. now destruct write_ok.
Qed.

Lemma Health_answers_by_flag_and_flag_is_never_cleared_witness :
  let W0 := boot "localhost:8080" ∅ in
  let W := Listen true W0 in
  StatusCode (health_response W0) = Some 503 /\
  StatusCode (health_response W) = Some 204 /\
  healthy (run [OpIndex (request "text/plain" (ReadOk body_a_b_c));
                OpHealth (request "" (ReadOk ""));
                OpTick;
                OpSignal SIGINT true true] W) = 1.
Proof.
  intros W0 W.
  destruct (Health_answers_by_flag_and_flag_is_never_cleared W0)
    as (_ & H503 & _).
  destruct (Health_answers_by_flag_and_flag_is_never_cleared W)
    as (H204 & _ & _ & Hrun & _).
  split; [apply H503; discriminate|].
  split; [apply H204; reflexivity|].
  apply Hrun. reflexivity.
Defined.

(** ** Counters never go down, short of overflow *)

Lemma Index_MessageCount (s : Server) (r : Request) (w : ResponseWriter) :
  MessageCount (fst (Index s r w)) =
  match request_messages r with
  | [] => MessageCount s
  | ms => Int64.add (MessageCount s) (Z.of_nat (List.length ms))
  end.
Proof.
  rewrite Index_unfold. unfold request_messages.
  destruct (Body r) as [body|err]; cbn [Index_serve fst]; [|reflexivity].
  destruct (messages_of _ body) as [|m ms] eqn:E; [reflexivity|].
  now rewrite Index_tally_MessageCount.
Qed.

Lemma Index_ByteTotal (s : Server) (r : Request) (w : ResponseWriter) :
  ByteTotal (fst (Index s r w)) =
  match request_messages r with
  | [] => ByteTotal s
  | _ => Int64.add (ByteTotal s) (Z.of_nat (request_byteLen r))
  end.
Proof.
  rewrite Index_unfold. unfold request_messages, request_byteLen.
  destruct (Body r) as [body|err]; cbn [Index_serve fst]; [|reflexivity].
  destruct (messages_of _ body) as [|m ms] eqn:E; [reflexivity|].
  now rewrite Index_tally_ByteTotal.
Qed.

Lemma Index_counters_le (s : Server) (r : Request) (w : ResponseWriter) :
  fits s r -> counters_le s (fst (Index s r w)).
Proof.
  intros (Hr & Hm & Hb). unfold counters_le.
  rewrite Index_RequestCount, Index_MessageCount, Index_ByteTotal.
  unfold request_bytes in Hb.
  rewrite (Int64Facts.add_exact _ _ Hr).
  destruct (request_messages r) as [|m ms].
  - lia.
  - rewrite (Int64Facts.add_exact _ _ Hm), (Int64Facts.add_exact _ _ Hb). lia.
Qed.

Lemma counters_le_refl (s : Server) : counters_le s s.
Proof. unfold counters_le. lia. Qed.

Lemma counters_le_trans (s1 s2 s3 : Server) :
  counters_le s1 s2 -> counters_le s2 s3 -> counters_le s1 s3.
Proof. unfold counters_le. lia. Qed.

Lemma run_counters_le (ops : list Op) (W : World) :
  no_overflow W ops -> counters_le (srv W) (srv (run ops W)).
Proof.
  revert W. induction ops as [|op ops IH]; intros W H.
  - apply counters_le_refl.
  - destruct H as [Hop Hrest]. rewrite run_cons.
    apply counters_le_trans with (srv (step W op)); [|now apply IH].
    rewrite step_srv. destruct (exited W) eqn:Hrun.
    + apply counters_le_refl.
    + destruct op; try apply counters_le_refl.
      apply Index_counters_le. now apply Hop.
Qed.

(** C10, as stated, fails at the end of the range of [int64]: a server
    that has counted 2^63-1 requests since it started has [RequestCount]
    at the largest [int64], and the next request takes it to the
    smallest. *)
Lemma RequestCount_wraps_to_negative :
  let r := request "text/plain" (ReadOk "") in
  let s := Index_all (List.repeat r (Z.to_nat Int64.max_int))
             (NewServer "localhost:8080") in
  RequestCount s = Int64.max_int /\
  RequestCount (fst (Index s r newResponseWriter)) = Int64.min_int /\
  RequestCount (fst (Index s r newResponseWriter)) < RequestCount s.
Proof.
  intros r s.
  assert (Hs : RequestCount s = Int64.max_int).
  { subst s. rewrite Index_all_RequestCount.
    - rewrite List.repeat_length, Z2Nat.id by discriminate. reflexivity.
    - split; discriminate. }
  rewrite Index_RequestCount, Hs. repeat split.
Qed.

Lemma Listen_srv (bind_ok : bool) (W : World) : srv (Listen bind_ok W) = srv W.
Proof. now destruct bind_ok. Qed.

Lemma WriteSummary_srv (write_ok : bool) (W : World) :
  srv (WriteSummary write_ok W) = srv W.
Proof. now destruct write_ok. Qed.

(** C10, amended. The three counters are zero in a new server, and no
    operation lowers any of them as long as no addition the ingestion
    handler makes leaves the range of [int64]: along any run of requests,
    health checks, ticks and signals in which the additions fit, every
    counter at the end is at least what it was at the start. The health
    handler, [Listen], [WriteSummary] and the signal goroutine do not
    change the server at all. *)
Theorem counters_start_at_zero_and_never_decrease_without_overflow :
  (forall address : string,
     RequestCount (NewServer address) = 0 /\
     MessageCount (NewServer address) = 0 /\
     ByteTotal (NewServer address) = 0) /\
  (forall (W : World) (ops : list Op),
     no_overflow W ops -> counters_le (srv W) (srv (run ops W))) /\
  (forall (s : Server) (r : Request) (w : ResponseWriter),
     fits s r -> counters_le s (fst (Index s r w))) /\
  (forall (W : World) (r : Request), step W (OpHealth r) = W) /\
  (forall (W : World) (bind_ok : bool), srv (Listen bind_ok W) = srv W) /\
  (forall (W : World) (write_ok : bool), srv (WriteSummary write_ok W) = srv W) /\
  (forall (W : World) (sig : Signal) (write_ok shutdown_ok : bool),
     srv (gracefulStop sig write_ok shutdown_ok W) = srv W).
Proof.
  split; [intros address; repeat split|].
  split; [intros W ops; apply run_counters_le|].
  split; [intros s r w; apply Index_counters_le|].
  split; [intros W r; unfold step; now destruct (exited W)|].
  split; [intros W bind_ok; apply Listen_srv|].
  split; [intros W write_ok; apply WriteSummary_srv|].
  intros W sig write_ok shutdown_ok. apply gracefulStop_srv.
Qed.

Lemma counters_start_at_zero_and_never_decrease_without_overflow_witness :
  let W := Listen true (boot "localhost:8080" ∅) in
  let ops := [OpIndex (request "text/plain" (ReadOk body_a_b_c));
              OpHealth (request "" (ReadOk ""));
              OpIndex (request "application/xml" (ReadOk "x"));
              OpIndex (request "text/plain" (ReadErr "unexpected EOF"));
              OpSignal SIGTERM true true] in
  no_overflow W ops /\ counters_le (srv W) (srv (run ops W)).
Proof.
  intros W ops.
  assert (H : no_overflow W ops).
  { cbn [no_overflow ops]. unfold fits, Int64.in_range.
    repeat match goal with
           | |- _ /\ _ => split
           | |- True => exact I
           | |- exited _ = None -> _ => intros _
           end; vm_compute; discriminate. }
  split; [exact H|].
  exact (proj1 (proj2 counters_start_at_zero_and_never_decrease_without_overflow)
           W ops H).
Defined.

(** * Further properties of [server.go] *)

(** ** Edges of [strings.Split] as [Index] uses it *)

Module SplitEdges.
Import Strings.

Lemma Count_le_length (s : string) (sep : ascii) :
  (Count s sep <= String.length s)%nat.
Proof.
  induction s as [|c rest IH]; cbn [Count String.length]; [lia|].
  destruct (Ascii.eqb c sep); lia.
Qed.

(** Without the separator in it, a string is its own single substring. *)
Lemma Split_no_separator (s : string) (sep : ascii) :
  Contains s sep = false -> Split s sep = [s].
Proof.
  induction s as [|c rest IH]; [reflexivity|].
  cbn [Contains Split]. destruct (Ascii.eqb c sep); cbn [orb]; [discriminate|].
  intros H. now rewrite (IH H).
Qed.

Lemma Split_hd_separator (rest : string) (sep : ascii) :
  List.hd "" (Split (String sep rest) sep) = "".
Proof. cbn [Split]. now rewrite Ascii.eqb_refl. Qed.

Lemma last_cons_nonempty {A : Type} (a : A) (l : list A) (d : A) :
  l <> [] -> List.last (a :: l) d = List.last l d.
Proof. destruct l; [congruence|reflexivity]. Qed.

(** After a final separator comes one last, empty substring. *)
Lemma Split_last_separator (s : string) (sep : ascii) :
  ends_with s sep = true -> List.last (Split s sep) "" = "".
Proof.
  induction s as [|c rest IH]; [discriminate|].
  destruct rest as [|c' rest'].
  - cbn [ends_with Split]. intros ->. reflexivity.
  - intros H. change (ends_with (String c' rest') sep = true) in H.
    specialize (IH H). remember (String c' rest') as rest eqn:Hrest.
    pose proof (StringsFacts.Join_Split rest sep) as HJ.
    cbn [Split]. destruct (Split rest sep) as [|seg segs] eqn:E.
    + cbn in HJ. congruence.
    + destruct (Ascii.eqb c sep).
      * now rewrite last_cons_nonempty.
      * destruct segs as [|seg' segs'].
        -- cbn in IH, HJ. congruence.
        -- rewrite last_cons_nonempty by discriminate.
           rewrite last_cons_nonempty in IH by discriminate. exact IH.
Qed.

End SplitEdges.

(** ** [LastMessage] *)

Lemma Index_LastMessage (s : Server) (r : Request) (w : ResponseWriter) :
  LastMessage (fst (Index s r w)) =
  if String.eqb (request_lastMessage r) "" then LastMessage s
  else request_lastMessage r.
Proof.
  rewrite Index_unfold. unfold request_lastMessage, request_messages.
  destruct (Body r) as [body|err]; cbn [Index_serve fst]; [|reflexivity].
  destruct (messages_of _ body) as [|m ms]; [reflexivity|].
  cbn [Index_tally LastMessage Index_count].
  now destruct (String.eqb (List.last (m :: ms) "") "").
Qed.

(** X1. Over any sequence of requests [LastMessage] is the final segment
    ([messages[len-1]]) of the latest request whose final segment is not
    empty, and the value it had before when there is no such request. *)
Theorem LastMessage_is_latest_nonempty_final_segment :
  forall (rs : list Request) (s : Server),
    LastMessage (Index_all rs s) =
    let m := first_nonempty (List.rev (List.map request_lastMessage rs)) in
    if String.eqb m "" then LastMessage s else m.
Proof.
  intros rs s. induction rs as [|r rs IH] using rev_ind.
  - reflexivity.
  - rewrite Index_all_app. cbn [Index_all fold_left].
    rewrite Index_LastMessage. fold (Index_all rs s). rewrite IH.
    rewrite List.map_app, List.rev_app_distr. cbn [List.map List.rev List.app].
    cbn [first_nonempty].
    destruct (String.eqb_spec (request_lastMessage r) "") as [E|NE].
    + reflexivity.
    + cbn zeta. destruct (String.eqb_spec (request_lastMessage r) ""); congruence.
Qed.

(** ** Bodies that begin or end with a line feed, or have none *)

Lemma request_messages_allow_listed (r : Request) (body : string) :
  allow_listed (Header_Get (Header r) "Content-Type") = true ->
  Body r = ReadOk body ->
  request_messages r = Strings.Split body Strings.LF.
Proof.
  intros Hct Hbody. unfold request_messages.
  now rewrite Hbody, messages_of_allow_listed, Hct.
Qed.

(** X2. For an allow-listed request, a body that ends with a line feed
    never changes [LastMessage] (its final segment is empty, whatever
    comes before), and a body that begins with a line feed never changes
    [FirstMessage]. *)
Theorem newline_at_the_edge_leaves_the_message :
  forall (s : Server) (r : Request) (w : ResponseWriter) (body : string),
    allow_listed (Header_Get (Header r) "Content-Type") = true ->
    Body r = ReadOk body ->
    (ends_with body Strings.LF = true ->
     LastMessage (fst (Index s r w)) = LastMessage s) /\
    (forall rest : string, body = String Strings.LF rest ->
     FirstMessage (fst (Index s r w)) = FirstMessage s).
Proof.
  intros s r w body Hct Hbody. split.
  - intros Hend. rewrite Index_LastMessage. unfold request_lastMessage.
    rewrite (request_messages_allow_listed r body Hct Hbody).
    now rewrite SplitEdges.Split_last_separator.
  - intros rest ->. rewrite Index_FirstMessage. unfold request_firstMessage.
    rewrite (request_messages_allow_listed r _ Hct Hbody).
    rewrite SplitEdges.Split_hd_separator.
    destruct (String.eqb_spec (FirstMessage s) ""); congruence.
Qed.

Lemma newline_at_the_edge_leaves_the_message_witness :
  let s := {| address := "localhost:8080"; ByteTotal := 5;
              FirstMessage := "a"; LastMessage := "c";
              MessageCount := 3; RequestCount := 1 |} in
  let r := request "application/ndjson"
             (ReadOk (String "d" (String Strings.LF ""))) in
  LastMessage (fst (Index s r newResponseWriter)) = "c".
Proof.
  intros s r.
  exact (proj1 (newline_at_the_edge_leaves_the_message s r newResponseWriter
                  (String "d" (String Strings.LF "")) eq_refl eq_refl) eq_refl).
Defined.

(** X3. For an allow-listed request whose body has no line feed (the
    empty body included) the whole body is the one message: [MessageCount]
    goes up by one and [ByteTotal] by the length of the body;
    [FirstMessage] takes the body when it was empty, [LastMessage] takes
    it unless the body is empty. *)
Theorem body_without_newline_is_one_message :
  forall (s : Server) (r : Request) (w : ResponseWriter) (body : string),
    allow_listed (Header_Get (Header r) "Content-Type") = true ->
    Body r = ReadOk body ->
    Strings.Contains body Strings.LF = false ->
    let s' := fst (Index s r w) in
    request_messages r = [body] /\
    MessageCount s' = Int64.add (MessageCount s) 1 /\
    ByteTotal s' = Int64.add (ByteTotal s) (Z.of_nat (String.length body)) /\
    FirstMessage s' =
      (if String.eqb (FirstMessage s) "" then body else FirstMessage s) /\
    LastMessage s' = (if String.eqb body "" then LastMessage s else body).
Proof.
  intros s r w body Hct Hbody Hnl s'.
  assert (Hm : request_messages r = [body]).
  { rewrite (request_messages_allow_listed r body Hct Hbody).
    now apply SplitEdges.Split_no_separator. }
  subst s'. split; [exact Hm|].
  rewrite Index_MessageCount, Index_ByteTotal, Index_FirstMessage,
    Index_LastMessage.
  unfold request_firstMessage, request_lastMessage, request_byteLen.
  rewrite Hm, Hbody. cbn [List.hd List.last List.length].
  repeat split.
Qed.

Lemma body_without_newline_is_one_message_witness :
  let s' := fst (Index (NewServer "localhost:8080")
                   (request "text/plain" (ReadOk "")) newResponseWriter) in
  MessageCount s' = 1 /\ ByteTotal s' = 0 /\
  FirstMessage s' = "" /\ LastMessage s' = "".
Proof.
  intros s'.
  destruct (body_without_newline_is_one_message (NewServer "localhost:8080")
              (request "text/plain" (ReadOk "")) newResponseWriter ""
              eq_refl eq_refl eq_refl) as (_ & Hm & Hb & Hf & Hl).
  split; [exact Hm|]. split; [exact Hb|]. split; [exact Hf|exact Hl].
Defined.

(** X4. The messages [Index] gets from an allow-listed body are never
    none, none of them contains a line feed, and joined with line feeds
    they are the body again: nothing of the body is lost or added by the
    split. *)
Theorem messages_joined_are_the_body :
  forall (r : Request) (body : string),
    allow_listed (Header_Get (Header r) "Content-Type") = true ->
    Body r = ReadOk body ->
    request_messages r <> [] /\
    Forall (fun m => Strings.Contains m Strings.LF = false) (request_messages r) /\
    Strings.Join (request_messages r) Strings.LF = body.
Proof.
  intros r body Hct Hbody.
  rewrite (request_messages_allow_listed r body Hct Hbody).
  split; [apply StringsFacts.Split_not_nil|].
  split; [apply StringsFacts.Split_no_sep|apply StringsFacts.Join_Split].
Qed.

Lemma messages_joined_are_the_body_witness :
  let r := request "text/plain" (ReadOk body_a_b_c) in
  request_messages r = ["a"; "b"; "c"] /\
  Strings.Join (request_messages r) Strings.LF = body_a_b_c.
Proof.
  intros r. split; [reflexivity|].
  exact (proj2 (proj2 (messages_joined_are_the_body r body_a_b_c
                         eq_refl eq_refl))).
Defined.

(** ** Totals over a sequence of requests *)

Lemma Index_MessageCount_add (s : Server) (r : Request) (w : ResponseWriter) :
  Int64.in_range (MessageCount s) ->
  MessageCount (fst (Index s r w)) =
  Int64.add (MessageCount s) (Z.of_nat (List.length (request_messages r))).
Proof.
  intros Hs. rewrite Index_MessageCount.
  destruct (request_messages r) as [|m ms]; [|reflexivity].
  cbn [List.length Z.of_nat]. unfold Int64.add. rewrite Z.add_0_r.
  symmetry. now apply Int64Facts.wrap_id.
Qed.

Lemma Index_ByteTotal_add (s : Server) (r : Request) (w : ResponseWriter) :
  Int64.in_range (ByteTotal s) ->
  ByteTotal (fst (Index s r w)) =
  Int64.add (ByteTotal s) (Z.of_nat (request_bytes r)).
Proof.
  intros Hs. rewrite Index_ByteTotal. unfold request_bytes.
  destruct (request_messages r) as [|m ms]; [|reflexivity].
  cbn [Z.of_nat]. unfold Int64.add. rewrite Z.add_0_r.
  symmetry. now apply Int64Facts.wrap_id.
Qed.

Lemma Index_all_totals :
  forall (rs : list Request) (s : Server),
    counters_in_range s ->
    counters_in_range (Index_all rs s) /\
    RequestCount (Index_all rs s) =
      Int64.add (RequestCount s) (Z.of_nat (List.length rs)) /\
    MessageCount (Index_all rs s) =
      Int64.add (MessageCount s) (Z.of_nat (messages_total rs)) /\
    ByteTotal (Index_all rs s) =
      Int64.add (ByteTotal s) (Z.of_nat (bytes_total rs)).
Proof.
  induction rs as [|r rs IH]; intros s (Hr & Hm & Hb).
  - cbn [Index_all fold_left List.length messages_total bytes_total
         List.map list_sum Z.of_nat].
    unfold Int64.add. rewrite !Z.add_0_r, !Int64Facts.wrap_id by assumption.
    repeat split; try apply Hr; try apply Hm; apply Hb.
  - rewrite Index_all_cons.
    set (s1 := fst (Index s r newResponseWriter)).
    assert (H1 : counters_in_range s1).
    { subst s1. unfold counters_in_range.
      rewrite Index_RequestCount, Index_MessageCount_add, Index_ByteTotal_add
        by assumption.
      repeat split; apply Int64Facts.add_in_range. }
    destruct (IH s1 H1) as (Hin & HR & HM & HB).
    split; [exact Hin|].
    rewrite HR, HM, HB. subst s1.
    rewrite Index_RequestCount, Index_MessageCount_add, Index_ByteTotal_add
      by assumption.
    unfold Int64.add, messages_total, bytes_total.
    cbn [List.length List.map list_sum].
    rewrite !wrap_wrap_add.
    repeat split; f_equal; simpl list_sum; lia.
Qed.

(** X5. [Index] keeps the three counters within [int64]; over a sequence
    of requests it adds, in [int64], the number of requests to
    [RequestCount], the number of all their messages to [MessageCount]
    and the lengths of the bodies that had messages to [ByteTotal]. *)
Theorem Index_all_adds_the_totals :
  forall (rs : list Request) (s : Server),
    counters_in_range s ->
    counters_in_range (Index_all rs s) /\
    RequestCount (Index_all rs s) =
      Int64.add (RequestCount s) (Z.of_nat (List.length rs)) /\
    MessageCount (Index_all rs s) =
      Int64.add (MessageCount s) (Z.of_nat (messages_total rs)) /\
    ByteTotal (Index_all rs s) =
      Int64.add (ByteTotal s) (Z.of_nat (bytes_total rs)).
Proof.
  intros rs s Hs.
  destruct (Index_all_totals rs s Hs) as (Hin & HR & HM & HB).
  split; [exact Hin|]. split; [exact HR|]. split; [exact HM|exact HB].
Qed.

Lemma Index_all_adds_the_totals_witness :
  let rs := [request "text/plain" (ReadOk body_a_b_c);
             request "application/xml" (ReadOk "x");
             request "text/plain" (ReadErr "unexpected EOF");
             request "application/json" (ReadOk body_nl_first)] in
  let s := Index_all rs (NewServer "localhost:8080") in
  RequestCount s = 4 /\ MessageCount s = 5 /\ ByteTotal s = 11.
Proof.
  intros rs s.
  assert (H0 : counters_in_range (NewServer "localhost:8080")).
  { repeat split; discriminate. }
  destruct (Index_all_adds_the_totals rs (NewServer "localhost:8080") H0)
    as (_ & HR & HM & HB).
  split; [exact HR|]. split; [exact HM|exact HB].
Defined.

Lemma request_messages_le_bytes (r : Request) :
  (List.length (request_messages r) <= request_bytes r + 1)%nat.
Proof.
  unfold request_bytes, request_byteLen.
  destruct (request_messages r) as [|m ms] eqn:E; [cbn; lia|].
  unfold request_messages in E. destruct (Body r) as [body|err]; [|discriminate].
  rewrite messages_of_allow_listed in E.
  destruct (allow_listed _); [|discriminate].
  rewrite <- E, StringsFacts.Split_length.
  pose proof (SplitEdges.Count_le_length body Strings.LF). lia.
Qed.

Lemma messages_total_le (rs : list Request) :
  (messages_total rs <= bytes_total rs + List.length rs)%nat.
Proof.
  unfold messages_total, bytes_total.
  induction rs as [|r rs IH]; cbn [List.map List.length]; simpl list_sum; [lia|].
  pose proof (request_messages_le_bytes r). lia.
Qed.

(** X6. On a server that started new and whose totals fit in [int64],
    the counters are the plain totals of the requests it has handled, and
    [MessageCount] is at most [ByteTotal] plus [RequestCount]: every
    message after the first of a request costs a line feed byte. *)
Theorem messages_at_most_bytes_plus_requests :
  forall (address : string) (rs : list Request),
    Z.of_nat (List.length rs) <= Int64.max_int ->
    Z.of_nat (messages_total rs) <= Int64.max_int ->
    Z.of_nat (bytes_total rs) <= Int64.max_int ->
    let s := Index_all rs (NewServer address) in
    RequestCount s = Z.of_nat (List.length rs) /\
    MessageCount s = Z.of_nat (messages_total rs) /\
    ByteTotal s = Z.of_nat (bytes_total rs) /\
    MessageCount s <= ByteTotal s + RequestCount s.
Proof.
  intros address rs Hr Hm Hb s.
  assert (H0 : counters_in_range (NewServer address)).
  { repeat split; discriminate. }
  destruct (Index_all_totals rs (NewServer address) H0)
    as (_ & HR & HM & HB).
  fold s in HR, HM, HB. cbn [NewServer RequestCount MessageCount ByteTotal] in *.
  assert (Hmin : Int64.min_int <= 0) by discriminate.
  rewrite Int64Facts.add_exact in HR by (split; lia).
  rewrite Int64Facts.add_exact in HM by (split; lia).
  rewrite Int64Facts.add_exact in HB by (split; lia).
  rewrite HR, HM, HB. repeat split.
  pose proof (messages_total_le rs). lia.
Qed.

Lemma messages_at_most_bytes_plus_requests_witness :
  let rs := [request "text/plain" (ReadOk body_a_b_c);
             request "application/xml" (ReadOk "x");
             request "text/plain" (ReadOk "")] in
  let s := Index_all rs (NewServer "localhost:8080") in
  MessageCount s = 4 /\ MessageCount s <= ByteTotal s + RequestCount s.
Proof.
  intros rs s.
  destruct (messages_at_most_bytes_plus_requests "localhost:8080" rs)
    as (_ & HM & _ & Hle); try (vm_compute; discriminate).
  split; [exact HM|exact Hle].
Defined.

(** ** The process around the handlers *)


(** A process that has exited does nothing more. *)
Lemma run_exited (ops : list Op) (W : World) :
  exited W <> None -> run ops W = W.
Proof.
  intros H. induction ops as [|op ops IH]; [reflexivity|].
  rewrite run_cons. unfold step at 1.
  destruct (exited W) eqn:E; [exact IH|congruence].
Qed.













(** X9. When the listener cannot be bound, [Listen] ends the process with
    status 1: the listener never serves, no request is handled afterwards
    and no summary is ever written. When it can, the process keeps
    running with the listener serving and the signal goroutine waiting. *)
Theorem bind_failure_is_fatal :
  forall (W : World),
    exited W = None ->
    (let W' := Listen false W in
     exited W' = Some (ExitCode 1) /\
     listener W' = listener W /\
     files W' = files W /\
     srv W' = srv W /\
     forall ops : list Op, run ops W' = W') /\
    (let W' := Listen true W in
     exited W' = None /\ listener W' = Serving /\ notified W' = true).
Proof.
  intros W H. split.
  - cbn zeta. repeat split. intros ops. apply run_exited. discriminate.
  - cbn zeta. repeat split. exact H.
Qed.

Lemma bind_failure_is_fatal_witness :
  let W := Listen false (boot "localhost:8080" ∅) in
  let ops := [OpIndex (request "text/plain" (ReadOk body_a_b_c));
              OpSignal SIGTERM true true] in
  exited (run ops W) = Some (ExitCode 1) /\
  RequestCount (srv (run ops W)) = 0 /\
  files (run ops W) !! summaryPath = None.
Proof.
  intros W ops.
  destruct (proj1 (bind_failure_is_fatal (boot "localhost:8080" ∅) eq_refl))
    as (He & _ & _ & _ & Hrun).
  fold W in He, Hrun. rewrite (Hrun ops).
  split; [exact He|]. split; [reflexivity|]. vm_compute. reflexivity.
Defined.




(** ** The strings of the summary *)

Module CoerceFacts.
Import UTF8.

Lemma Valid_replacement (s : string) :
  Valid (String.append replacement s) = Valid s.
Proof. reflexivity. Qed.

Lemma Valid_Coerce_bounded (n : nat) :
  forall s : string, (String.length s <= n)%nat -> Valid (Coerce s) = true.
Proof.
  induction n as [|n IH]; intros s Hlen.
  - destruct s; [reflexivity|cbn in Hlen; lia].
  - destruct s as [|c0 t0]; [reflexivity|].
    cbn [String.length] in Hlen. cbn [Coerce].
    assert (Hbad : Valid (String.append replacement (Coerce t0)) = true).
    { rewrite Valid_replacement. apply IH. lia. }
    destruct (byte c0 <? RuneSelf) eqn:E0.
    { cbn [Valid]. rewrite E0. apply IH. lia. }
    destruct (first (byte c0)) as [[[sz lo] hi]|] eqn:Ef; [|exact Hbad].
    destruct t0 as [|c1 t1]; [exact Hbad|].
    cbn [String.length] in Hlen.
    destruct (between lo hi c1) eqn:E1; cbn [negb]; [|exact Hbad].
    destruct (sz =? 2)%nat eqn:E2.
    { cbn [Valid]. rewrite E0, Ef, E1. cbn [negb]. rewrite E2. apply IH. lia. }
    destruct t1 as [|c2 t2]; [exact Hbad|].
    cbn [String.length] in Hlen.
    destruct (cont c2) eqn:E3; cbn [negb]; [|exact Hbad].
    destruct (sz =? 3)%nat eqn:E4.
    { cbn [Valid]. rewrite E0, Ef, E1. cbn [negb]. rewrite E2, E3. cbn [negb].
      rewrite E4. apply IH. lia. }
    destruct t2 as [|c3 t3]; [exact Hbad|].
    cbn [String.length] in Hlen.
    destruct (cont c3) eqn:E5; cbn [negb]; [|exact Hbad].
    cbn [Valid]. rewrite E0, Ef, E1. cbn [negb]. rewrite E2, E3. cbn [negb].
    rewrite E4, E5. cbn [negb]. apply IH. lia.
Qed.

(** What the encoder writes is valid UTF-8, whatever it was given. *)
Lemma Valid_Coerce (s : string) : Valid (Coerce s) = true.
Proof. apply (Valid_Coerce_bounded (String.length s)). lia. Qed.

Lemma Coerce_fixed_iff_Valid (s : string) : Coerce s = s <-> Valid s = true.
Proof.
  split.
  - intros H. rewrite <- H. apply Valid_Coerce.
  - apply UTF8Facts.Coerce_Valid.
Qed.

End CoerceFacts.

(** X11. The two strings of a summary are always valid UTF-8, whatever
    bytes the bodies held, and each is the string in memory exactly when
    that one is valid UTF-8; writing a summary string again changes
    nothing. *)
Theorem summary_strings_are_valid_UTF8 :
  forall s : Server,
    exists first last : string,
      field "first_message" (Marshal s) = Some (JString first) /\
      field "last_message" (Marshal s) = Some (JString last) /\
      UTF8.Valid first = true /\ UTF8.Valid last = true /\
      (first = FirstMessage s <-> UTF8.Valid (FirstMessage s) = true) /\
      (last = LastMessage s <-> UTF8.Valid (LastMessage s) = true) /\
      UTF8.Coerce first = first /\ UTF8.Coerce last = last.
Proof.
  intros s.
  exists (UTF8.Coerce (FirstMessage s)), (UTF8.Coerce (LastMessage s)).
  split; [reflexivity|]. split; [reflexivity|].
  split; [apply CoerceFacts.Valid_Coerce|].
  split; [apply CoerceFacts.Valid_Coerce|].
  split; [apply CoerceFacts.Coerce_fixed_iff_Valid|].
  split; [apply CoerceFacts.Coerce_fixed_iff_Valid|].
  split; apply UTF8Facts.Coerce_Valid, CoerceFacts.Valid_Coerce.
Qed.

(** ** Request identifiers and the access log *)

Lemma to_int_not_nil (z : Z) : Z.to_int z <> Pos Nil /\ Z.to_int z <> Neg Nil.
Proof.
  destruct z as [|p|p]; cbn [Z.to_int]; split; try discriminate;
    intros [= H]; now apply (DecimalPos.Unsigned.to_uint_nonnil p).
Qed.

Lemma ParseInt_Sprintf_d (z : Z) : ParseInt (Sprintf_d z) = Some z.
Proof.
  unfold ParseInt, Sprintf_d.
  destruct (to_int_not_nil z) as [H1 H2].
  rewrite NilZero.isi by assumption.
  cbn [option_map]. now rewrite DecimalZ.of_to.
Qed.

Lemma Sprintf_d_not_empty (z : Z) : Sprintf_d z <> "".
Proof.
  intros H. pose proof (ParseInt_Sprintf_d z) as P. rewrite H in P. discriminate.
Qed.

(** X12. The identifiers [nextRequestID] makes are the decimal digits of
    the clock reading: never empty, they read back as that reading, and
    two of them are equal exactly when the two readings are (two requests
    traced in the same nanosecond get the same identifier). *)
Theorem nextRequestID_is_the_clock_in_decimal :
  forall z1 z2 : Z,
    ParseInt (nextRequestID z1) = Some z1 /\
    nextRequestID z1 <> "" /\
    (nextRequestID z1 = nextRequestID z2 <-> z1 = z2).
Proof.
  intros z1 z2. unfold nextRequestID.
  split; [apply ParseInt_Sprintf_d|].
  split; [apply Sprintf_d_not_empty|].
  split; [|now intros ->].
  intros H. pose proof (ParseInt_Sprintf_d z1) as P1.
  rewrite H, ParseInt_Sprintf_d in P1. congruence.
Qed.

Lemma requestID_of_not_empty (r : Inbound) : requestID_of nextRequestID r <> "".
Proof.
  unfold requestID_of.
  destruct (String.eqb_spec (Header_Get (Header (Req r)) "X-Request-Id") "");
    [apply Sprintf_d_not_empty|assumption].
Qed.

(** The handlers behind the router keep the response headers they find. *)
Lemma routed_keeps_header (route : Route) (r : Inbound) (w : Outbound) (W : World)
    (key : string) :
  key <> "Content-Type" -> key <> "X-Content-Type-Options" ->
  RespHeader (fst (routed route r w W)) !! key = RespHeader w !! key.
Proof.
  intros H1 H2. destruct route; [|reflexivity].
  cbn [routed]. unfold Index_handler.
  destruct (Index _ (Req r) (Writer w)) as [s' writer'].
  destruct (Body (Req r)); cbn [fst RespHeader]; [reflexivity|].
  unfold Header_Set. rewrite !lookup_insert_ne by congruence. reflexivity.
Qed.

Lemma ServeHTTP_unfold (route : Route) (r : Inbound) (w : Outbound) (W : World) :
  let id := requestID_of nextRequestID r in
  let r' := WithValue requestIDKey id r in
  let w' := {| Writer := Writer w;
               RespHeader := Header_Set "X-Request-Id" id (RespHeader w) |} in
  ServeHTTP route r w W =
  (fst (routed route r' w' W),
   emit [ELog (access_line r')] (snd (routed route r' w' W))).
Proof.
  cbn zeta. unfold ServeHTTP, tracing, logging.
  now destruct (routed route _ _ W).
Qed.

(** X13. Under the wiring of [NewServer] every response carries an
    [X-Request-Id] that is not empty: the one the request brought when
    that is not empty, else the clock in decimal. The same identifier
    starts the access-log line, which is printed once, after everything
    the handler itself printed. *)
Theorem request_id_is_echoed_and_logged :
  forall (route : Route) (r : Inbound) (w : Outbound) (W : World),
    let id := requestID_of nextRequestID r in
    let inbound_id := Header_Get (Header (Req r)) "X-Request-Id" in
    let out := ServeHTTP route r w W in
    RespHeader (fst out) !! "X-Request-Id" = Some [id] /\
    id <> "" /\
    (inbound_id <> "" -> id = inbound_id) /\
    (inbound_id = "" -> ParseInt id = Some (UnixNano r)) /\
    exists own : list Effect,
      effects (snd out) =
      effects W ++ own ++
      [ELog (Sprintln [id; Method (Req r); URLPath (Req r); RemoteAddr r;
                       Header_Get (Header (Req r)) "User-Agent"])] /\
      (route = RouteHealth -> own = []).
Proof.
  intros route r w W id inbound_id out.
  pose proof (ServeHTTP_unfold route r w W) as HU. cbn zeta in HU.
  fold id in HU. subst out. rewrite HU. cbn [fst snd].
  split.
  { rewrite routed_keeps_header by discriminate.
    cbn [RespHeader]. unfold Header_Set. apply lookup_insert_eq. }
  split; [apply requestID_of_not_empty|].
  split.
  { intros Hne. subst id. unfold requestID_of. fold inbound_id.
    destruct (String.eqb_spec inbound_id ""); congruence. }
  split.
  { intros He. subst id. unfold requestID_of. fold inbound_id.
    rewrite He. cbn. apply ParseInt_Sprintf_d. }
  assert (Hline : access_line (WithValue requestIDKey id r) =
            Sprintln [id; Method (Req r); URLPath (Req r); RemoteAddr r;
                      Header_Get (Header (Req r)) "User-Agent"]).
  { unfold access_line, WithValue. cbn [Ctx Req RemoteAddr].
    now rewrite lookup_insert_eq. }
  rewrite Hline, effects_emit.
  destruct route; cbn [routed].
  - unfold Index_handler.
    destruct (Index _ (Req (WithValue requestIDKey id r)) _) as [s' writer'].
    destruct (Body (Req (WithValue requestIDKey id r))) as [body|err];
      cbn [snd effects set_srv emit].
    + rewrite <- app_assoc. eexists. split; [reflexivity|discriminate].
    + rewrite <- !app_assoc.
      exists [ELog (String.append "Received request: content-type: "
                     (String.append (Header_Get (Header (Req r)) "Content-Type")
                        (String.append ", content-length: "
                           (Header_Get (Header (Req r)) "Content-Length"))));
              ELog (String.append "Error reading body: " err)].
      split; [reflexivity|discriminate].
  - exists []. cbn [Health_handler snd]. split; reflexivity.
Qed.

Lemma request_id_is_echoed_and_logged_witness :
  let r := {| Method := "GET"; URLPath := "/_health";
              Header := {[ "X-Request-Id" := ["abc"] ]};
              Body := ReadOk "" |} in
  let W := Listen true (boot "localhost:8080" ∅) in
  let out1 := ServeHTTP RouteHealth (inbound r "127.0.0.1:5000" 17) newOutbound W in
  let out2 := ServeHTTP RouteIndex
                (inbound (request "text/plain" (ReadOk body_a_b_c))
                   "127.0.0.1:5000" 1700000000000000000) newOutbound W in
  RespHeader (fst out1) !! "X-Request-Id" = Some ["abc"] /\
  RespHeader (fst out2) !! "X-Request-Id" = Some ["1700000000000000000"].
Proof.
  intros r W out1 out2. split.
  - etransitivity.
    + exact (proj1 (request_id_is_echoed_and_logged RouteHealth
                      (inbound r "127.0.0.1:5000" 17) newOutbound W)).
    + vm_compute. reflexivity.
  - etransitivity.
    + exact (proj1 (request_id_is_echoed_and_logged RouteIndex
                      (inbound (request "text/plain" (ReadOk body_a_b_c))
                         "127.0.0.1:5000" 1700000000000000000) newOutbound W)).
    + vm_compute. reflexivity.
Defined.

(** What [Index] does to the server does not depend on the writer. *)
Lemma Index_fst_any_writer (s : Server) (r : Request) (w w' : ResponseWriter) :
  fst (Index s r w) = fst (Index s r w').
Proof. rewrite !Index_unfold. now destruct (Body r). Qed.

(** X14. The middleware is transparent: under [tracing] and [logging] a
    request gets the status and body the handler alone writes, the server
    changes as under the handler alone (the same change a step of a run
    makes), and the flag, the files, the listener and the life of the
    process are not touched. *)
Theorem middleware_is_transparent :
  forall (route : Route) (r : Inbound) (w : Outbound) (W : World),
    let out := ServeHTTP route r w W in
    Writer (fst out) =
      match route with
      | RouteIndex => snd (Index (srv W) (Req r) (Writer w))
      | RouteHealth => Health (healthy W) (Writer w)
      end /\
    srv (snd out) =
      match route with
      | RouteIndex => fst (Index (srv W) (Req r) (Writer w))
      | RouteHealth => srv W
      end /\
    (exited W = None ->
     srv (snd out) =
     srv (step W match route with
                 | RouteIndex => OpIndex (Req r)
                 | RouteHealth => OpHealth (Req r)
                 end)) /\
    healthy (snd out) = healthy W /\
    files (snd out) = files W /\
    listener (snd out) = listener W /\
    exited (snd out) = exited W.
Proof.
  intros route r w W out.
  pose proof (ServeHTTP_unfold route r w W) as HU. cbn zeta in HU.
  subst out. rewrite HU. cbn [fst snd]. clear HU.
  destruct route; cbn [routed].
  - unfold Index_handler. cbn [WithValue Req Writer emit srv].
    destruct (Index (srv W) (Req r) (Writer w)) as [s' writer'] eqn:E.
    assert (Hs : s' = fst (Index (srv W) (Req r) (Writer w))) by now rewrite E.
    assert (Hstep : exited W = None -> s' = srv (step W (OpIndex (Req r)))).
    { intros He. rewrite step_srv, He, Hs. apply Index_fst_any_writer. }
    destruct (Body (Req r)); cbn [fst snd Writer]; repeat split; assumption.
  - cbn [Health_handler fst snd Writer WithValue]. repeat split.
    intros He. now rewrite step_srv, He.
Qed.

Lemma middleware_is_transparent_witness :
  let W := Listen true (boot "localhost:8080" ∅) in
  let r := inbound (request "text/plain" (ReadOk body_a_b_c))
             "127.0.0.1:5000" 1700000000000000000 in
  srv (snd (ServeHTTP RouteIndex r newOutbound W)) =
  srv (step W (OpIndex (Req r))).
Proof.
  intros W r.
  destruct (middleware_is_transparent RouteIndex r newOutbound W)
    as (_ & _ & H & _).
  exact (H eq_refl).
Defined.

(** ** The response of [Index] *)

(** X15. On a response nothing was written to yet, [Index] answers a body
    it could read with 204 and sends no body bytes (the line feed it
    writes after the status is dropped, as a 204 has no body); a body it
    could not read gets 400 and the line [can't read body]. *)
Theorem Index_response :
  forall (s : Server) (r : Request) (w : ResponseWriter),
    StatusCode w = None ->
    snd (Index s r w) =
    match Body r with
    | ReadOk _ => {| StatusCode := Some 204; Sent := Sent w |}
    | ReadErr _ =>
        {| StatusCode := Some 400;
           Sent := String.append (Sent w)
                     (String.append "can't read body" (String Strings.LF "")) |}
    end.
Proof.
  intros s r w Hw. rewrite Index_unfold.
  destruct w as [st sent]. cbn [StatusCode] in Hw. subst st.
  destruct (Body r); reflexivity.
Qed.

Lemma Index_response_witness :
  snd (Index (NewServer "localhost:8080")
         (request "text/plain" (ReadOk body_a_b_c)) newResponseWriter) =
  {| StatusCode := Some 204; Sent := "" |}.
Proof.
  exact (Index_response (NewServer "localhost:8080")
           (request "text/plain" (ReadOk body_a_b_c)) newResponseWriter eq_refl).
Defined.

(** ** The test driver *)

Module DriverFacts.
Import Driver.

Lemma append_nil (b : string) : String.append "" b = b.
Proof. reflexivity. Qed.

Lemma append_cons (c : ascii) (a b : string) :
  String.append (String c a) b = String c (String.append a b).
Proof. reflexivity. Qed.

Lemma Contains_append_slash (dir rest : string) :
  Strings.Contains (String.append dir (String "/" rest)) "/" = true.
Proof.
  induction dir as [|c dir IH]; rewrite ?append_nil, ?append_cons;
    cbn [Strings.Contains].
  - reflexivity.
  - rewrite IH. apply orb_true_r.
Qed.

Lemma strip_dirs_append (dir file : string) :
  Strings.Contains file "/" = false ->
  strip_dirs (String.append dir (String "/" file)) = file.
Proof.
  intros Hf. induction dir as [|c dir IH]; rewrite ?append_nil, ?append_cons;
    cbn [strip_dirs].
  - now rewrite Hf.
  - now rewrite Contains_append_slash.
Qed.

Lemma strip_dirs_no_slash (s : string) :
  Strings.Contains (strip_dirs s) "/" = false.
Proof.
  induction s as [|c rest IH]; [reflexivity|].
  cbn [strip_dirs]. destruct (Strings.Contains rest "/") eqn:E; [exact IH|].
  destruct (Ascii.eqb c "/") eqn:Ec; [exact E|].
  cbn [Strings.Contains]. now rewrite Ec, E.
Qed.

Lemma strip_sh_unfold (s : string) :
  strip_sh s =
  if String.eqb s ".sh" then EmptyString
  else match s with
       | EmptyString => EmptyString
       | String c rest => String c (strip_sh rest)
       end.
Proof. destruct s; reflexivity. Qed.

Lemma length_append (a b : string) :
  String.length (String.append a b) = (String.length a + String.length b)%nat.
Proof.
  induction a as [|c a IH]; rewrite ?append_nil, ?append_cons;
    cbn [String.length]; lia.
Qed.

Lemma strip_sh_append (name : string) : strip_sh (String.append name ".sh") = name.
Proof.
  induction name as [|c name IH]; [reflexivity|].
  rewrite append_cons, strip_sh_unfold.
  destruct (String.eqb_spec (String c (String.append name ".sh")) ".sh") as [E|_].
  - apply (f_equal String.length) in E. cbn [String.length] in E.
    rewrite length_append in E. cbn [String.length] in E. lia.
  - now rewrite IH.
Qed.

Lemma strip_sh_no_slash (s : string) :
  Strings.Contains s "/" = false -> Strings.Contains (strip_sh s) "/" = false.
Proof.
  induction s as [|c rest IH]; intros H; rewrite strip_sh_unfold.
  - reflexivity.
  - destruct (String.eqb (String c rest) ".sh"); [reflexivity|].
    cbn [Strings.Contains] in *. apply orb_false_iff in H as [H1 H2].
    now rewrite H1, IH.
Qed.

Lemma append_same_prefix (p a b : string) :
  String.append p a = String.append p b -> a = b.
Proof.
  induction p as [|c p IH]; rewrite ?append_nil, ?append_cons; [easy|].
  intros [= H]. now apply IH.
Qed.

Lemma wrap_injective_on_int64 (a x y : Z) :
  Int64.in_range x -> Int64.in_range y ->
  Int64.wrap (a + x) = Int64.wrap (a + y) -> x = y.
Proof.
  unfold Int64.in_range, Int64.min_int, Int64.max_int, Int64.wrap.
  rewrite Int64Facts.two63, Int64Facts.two64. intros Hx Hy H.
  pose proof (Z.div_mod (a + x + 9223372036854775808) 18446744073709551616).
  pose proof (Z.div_mod (a + y + 9223372036854775808) 18446744073709551616).
  lia.
Qed.

End DriverFacts.

(** X16. The test name [run_test] derives from a suite file is the file
    name without its directories and without the final [.sh]: for the
    file [name.sh] in any directory it is [name]. It never contains a
    slash, so the output directory of a test lies directly under
    [OUTPUT_DIR], and suites of one directory with different file names
    get different output directories. *)
Theorem test_name_is_the_file_name_without_sh :
  forall (dir name : string),
    Strings.Contains name "/" = false ->
    Driver.HTTP_TEST_NAME (Driver.suite_path dir name) = name /\
    (forall suite : string,
       Strings.Contains (Driver.HTTP_TEST_NAME suite) "/" = false) /\
    (forall (OUTPUT_DIR name' : string),
       Strings.Contains name' "/" = false ->
       Driver.TEST_OUTPUT_DIR OUTPUT_DIR (Driver.suite_path dir name) =
       Driver.TEST_OUTPUT_DIR OUTPUT_DIR (Driver.suite_path dir name') ->
       name = name').
Proof.
  intros dir name Hname.
  assert (Hrt : forall n, Strings.Contains n "/" = false ->
            Driver.HTTP_TEST_NAME (Driver.suite_path dir n) = n).
  { intros n Hn. unfold Driver.HTTP_TEST_NAME, Driver.suite_path.
    rewrite DriverFacts.strip_dirs_append.
    - apply DriverFacts.strip_sh_append.
    - clear -Hn. induction n as [|c n IH]; [reflexivity|].
      rewrite DriverFacts.append_cons. cbn [Strings.Contains] in *.
      apply orb_false_iff in Hn as [H1 H2]. now rewrite H1, IH. }
  split; [now apply Hrt|]. split.
  - intros suite. unfold Driver.HTTP_TEST_NAME.
    apply DriverFacts.strip_sh_no_slash, DriverFacts.strip_dirs_no_slash.
  - intros OUTPUT_DIR name' Hname' H. unfold Driver.TEST_OUTPUT_DIR in H.
    apply DriverFacts.append_same_prefix in H. injection H as H.
    now rewrite !Hrt in H.
Qed.

Lemma test_name_is_the_file_name_without_sh_witness :
  Driver.HTTP_TEST_NAME "/opt/tests/concurrency/suite/http_flood.sh" = "http_flood".
Proof.
  exact (proj1 (test_name_is_the_file_name_without_sh
                  "/opt/tests/concurrency/suite" "http_flood" eq_refl)).
Defined.

(** X17. Jobs with different sequence numbers get different addresses:
    the address is [localhost:] and, in decimal, 16998 plus the sequence
    number, and for sequence numbers up to 48537 that is a port number
    (at most 65535). *)
Theorem test_addresses_do_not_collide :
  forall seq1 seq2 : Z,
    Int64.in_range seq1 -> Int64.in_range seq2 ->
    (Driver.HTTP_TEST_ADDRESS seq1 = Driver.HTTP_TEST_ADDRESS seq2 <-> seq1 = seq2) /\
    (0 <= seq1 <= 48537 ->
     Driver.next_port seq1 = 16998 + seq1 /\
     16998 <= Driver.next_port seq1 <= 65535).
Proof.
  intros seq1 seq2 H1 H2. split.
  - split; [|now intros ->].
    unfold Driver.HTTP_TEST_ADDRESS. intros H.
    apply DriverFacts.append_same_prefix in H.
    assert (Hp : Driver.next_port seq1 = Driver.next_port seq2).
    { pose proof (ParseInt_Sprintf_d (Driver.next_port seq1)) as P.
      rewrite H, ParseInt_Sprintf_d in P. congruence. }
    unfold Driver.next_port, Int64.add in Hp.
    now apply (DriverFacts.wrap_injective_on_int64 Driver.BASE_PORT).
  - intros Hs. unfold Driver.next_port, Driver.BASE_PORT.
    rewrite Int64Facts.add_exact.
    + lia.
    + unfold Int64.in_range, Int64.min_int, Int64.max_int.
      rewrite Int64Facts.two63. lia.
Qed.

Lemma test_addresses_do_not_collide_witness :
  Driver.HTTP_TEST_ADDRESS 1 = "localhost:16999" /\
  Driver.HTTP_TEST_ADDRESS 1 <> Driver.HTTP_TEST_ADDRESS 2.
Proof.
  assert (R1 : Int64.in_range 1) by (split; discriminate).
  assert (R2 : Int64.in_range 2) by (split; discriminate).
  split; [reflexivity|].
  intros H. apply (proj1 (test_addresses_do_not_collide 1 2 R1 R2)) in H.
  discriminate H.
Defined.
